(** * CampusMinorProject: a shallow embedding of [app.py] and [models.py]

    The portal is a Flask application: every route handler of [create_app]
    reads the request, the session and the database, and answers with a
    rendered template or a redirect.  Handlers are embedded as functions in a
    state-and-exception monad over a [World] (database tables, upload
    directory, session); the two decorators are higher-order functions over
    handlers; one HTTP request is one [step] of the world. *)

From stdpp Require Import base option list gmap fin_maps strings sorting.
From Stdlib Require Import ZArith Ascii Lia.

Local Open Scope Z_scope.

(** ** Python's [str] methods

    A [string] is the sequence of its characters.  The functions are
    those of Python for ASCII text (every character below 128), work on the
    character list and are lifted to [string]; the properties that depend on
    what they do to a character assume the text ASCII. *)
Module Py.

Definition chars : string → list ascii := String.list_ascii_of_string.
Definition str : list ascii → string := String.string_of_list_ascii.

(** [c.isspace()] for an ASCII character: TAB, LF, VT, FF, CR, the four
    separators FS, GS, RS, US, and the space. *)
Definition isspace (c : ascii) : bool :=
  let n := nat_of_ascii c in
  ((9 <=? n)%nat && (n <=? 13)%nat) || ((28 <=? n)%nat && (n <=? 32)%nat).

Fixpoint lstrip_by (p : ascii → bool) (l : list ascii) : list ascii :=
  match l with
  | [] => []
  | c :: t => if p c then lstrip_by p t else l
  end.

Definition rstrip_by (p : ascii → bool) (l : list ascii) : list ascii :=
  reverse (lstrip_by p (reverse l)).

Definition strip_by (p : ascii → bool) (l : list ascii) : list ascii :=
  rstrip_by p (lstrip_by p l).

(** [s.strip()] *)
Definition strip (s : string) : string := str (strip_by isspace (chars s)).

(** [bool(s)] for a string: the empty string is false. *)
Definition truthy (s : string) : bool :=
  match s with EmptyString => false | String _ _ => true end.

(** [x or ""] for [x] a string or [None]. *)
Definition or_empty (o : option string) : string :=
  match o with
  | Some s => if truthy s then s else ""
  | None => ""
  end.

(** [s or None] *)
Definition or_None (s : string) : option string :=
  if truthy s then Some s else None.

Definition lower_char (c : ascii) : ascii :=
  let n := nat_of_ascii c in
  if ((65 <=? n)%nat && (n <=? 90)%nat) then ascii_of_nat (n + 32) else c.

(** [s.lower()] *)
Definition lower (s : string) : string := str (lower_char <$> chars s).

Definition dot : ascii := "."%char.

(** ["." in s] *)
Definition has_dot (s : string) : bool := bool_decide (dot ∈ chars s).

(** The characters after the last [sep] of [l], scanning from the left and
    restarting at every separator; [acc] is the piece read since the last
    one. *)
Fixpoint after_last (sep : ascii) (acc l : list ascii) : list ascii :=
  match l with
  | [] => acc
  | c :: t => if decide (c = sep) then after_last sep [] t
              else after_last sep (acc ++ [c]) t
  end.

(** [s.rsplit(".", 1)[1]] when ["." in s]: the text after the last dot. *)
Definition rsplit_dot_1 (s : string) : string := str (after_last dot [] (chars s)).

Definition digit (c : ascii) : option Z :=
  let n := nat_of_ascii c in
  if ((48 <=? n)%nat && (n <=? 57)%nat) then Some (Z.of_nat n - 48) else None.

(** The digits of a decimal literal, most significant first; a single
    underscore may stand between two digits.  [prev] tells whether the
    character before was a digit. *)
Fixpoint digits (prev : bool) (acc : Z) (l : list ascii) : option Z :=
  match l with
  | [] => if prev then Some acc else None
  | c :: t =>
      match digit c with
      | Some d => digits true (10 * acc + d) t
      | None =>
          if decide (c = "_"%char) then
            if prev then digits false acc t else None
          else None
      end
  end.

(** The white space [int] skips around the literal, C's [isspace]: TAB,
    LF, VT, FF, CR and the space; the separators FS, GS, RS and US are not
    skipped. *)
Definition c_isspace (c : ascii) : bool :=
  let n := nat_of_ascii c in
  ((9 <=? n)%nat && (n <=? 13)%nat) || (n =? 32)%nat.

(** [sys.get_int_max_str_digits()]: the default limit on the number of
    digits of a decimal literal. *)
Definition max_str_digits : nat := 4300.

Definition count_digits (l : list ascii) : nat :=
  length (filter (λ c, is_Some (digit c)) l).

(** [int(s)]: [None] stands for [ValueError]. *)
Definition int (s : string) : option Z :=
  match strip_by c_isspace (chars s) with
  | [] => None
  | c :: t =>
      let literal := if bool_decide (c = "-"%char ∨ c = "+"%char) then t else c :: t in
      if decide (max_str_digits < count_digits literal)%nat then None
      else if decide (c = "-"%char) then Z.opp <$> digits false 0 t
      else if decide (c = "+"%char) then digits false 0 t
      else digits false 0 (c :: t)
  end.

End Py.

(** ** Library functions the handlers call

    [secure_filename] (werkzeug.utils) and [os.path.join] on a POSIX host,
    for ASCII text. *)
Module Werkzeug.

Definition slash : ascii := "/"%char.

(** The characters [secure_filename] keeps: [[A-Za-z0-9_.-]]. *)
Definition safe_char (c : ascii) : bool :=
  let n := nat_of_ascii c in
  ((65 <=? n)%nat && (n <=? 90)%nat) || ((97 <=? n)%nat && (n <=? 122)%nat) ||
  ((48 <=? n)%nat && (n <=? 57)%nat) ||
  bool_decide (c = "_"%char) || bool_decide (c = "."%char) || bool_decide (c = "-"%char).

Definition is_ascii (c : ascii) : bool := (nat_of_ascii c <? 128)%nat.

(** [s.split()]: the maximal runs of characters that are not whitespace;
    [cur] is the run being read. *)
Fixpoint split_ws (cur l : list ascii) : list (list ascii) :=
  match l with
  | [] => match cur with [] => [] | _ => [cur] end
  | c :: t =>
      if Py.isspace c
      then match cur with [] => split_ws [] t | _ => cur :: split_ws [] t end
      else split_ws (cur ++ [c]) t
  end.

(** [sep.join(words)] *)
Fixpoint join (sep : list ascii) (words : list (list ascii)) : list ascii :=
  match words with
  | [] => []
  | [w] => w
  | w :: ws => w ++ sep ++ join sep ws
  end.

Definition dot_or_underscore (c : ascii) : bool :=
  bool_decide (c = "."%char) || bool_decide (c = "_"%char).

(** [secure_filename(filename)]: keep the ASCII of the name, turn the path
    separator into a space, join the whitespace-separated pieces with an
    underscore, delete every character outside [[A-Za-z0-9_.-]], and strip
    dots and underscores from both ends.  (Of a character that is not ASCII
    werkzeug keeps the ASCII part of its compatibility decomposition, the
    base letter of an accented one; here it is dropped, which is the same
    for an ASCII name.) *)
Definition secure_chars (l : list ascii) : list ascii :=
  let ascii_only := filter (λ c, is_ascii c = true) l in
  let no_sep := (λ c, if decide (c = slash) then " "%char else c) <$> ascii_only in
  let joined := join ["_"%char] (split_ws [] no_sep) in
  Py.strip_by dot_or_underscore (filter (λ c, safe_char c = true) joined).

Definition secure_filename (filename : string) : string :=
  Py.str (secure_chars (Py.chars filename)).

(** [os.path.join(a, b)] of [posixpath]: an absolute [b] replaces [a]. *)
Definition starts_with_slash (s : string) : bool :=
  match Py.chars s with c :: _ => bool_decide (c = slash) | [] => false end.

Definition ends_with_slash (s : string) : bool :=
  match last (Py.chars s) with Some c => bool_decide (c = slash) | None => false end.

Definition path_join (a b : string) : string :=
  if starts_with_slash b then b
  else if negb (Py.truthy a) || ends_with_slash a then a +:+ b
  else a +:+ "/" +:+ b.

(** A [FileStorage]: the client's file name and the bytes of the upload. *)
Record FileStorage := { filename : string; stream : string }.

(** [bool(file)] is [bool(file.filename)]. *)
Definition file_truthy (f : FileStorage) : bool := Py.truthy (filename f).

End Werkzeug.

(** ** The template filter's library functions

    [markupsafe.escape] and [str.splitlines], for ASCII text. *)
Module Markup.

Definition quot : ascii := ascii_of_nat 34.
Definition apos : ascii := ascii_of_nat 39.

(** [escape]: the five characters of HTML markup become entities. *)
Definition escape_char (c : ascii) : list ascii :=
  if decide (c = "&"%char) then Py.chars "&amp;"
  else if decide (c = "<"%char) then Py.chars "&lt;"
  else if decide (c = ">"%char) then Py.chars "&gt;"
  else if decide (c = apos) then Py.chars "&#39;"
  else if decide (c = quot) then Py.chars "&#34;"
  else [c].

Definition escape (s : string) : string := Py.str (Py.chars s ≫= escape_char).

(** The ASCII line boundaries of [splitlines]: LF, VT, FF, CR, FS, GS, RS. *)
Definition linebreak (c : ascii) : bool :=
  let n := nat_of_ascii c in
  ((10 <=? n)%nat && (n <=? 13)%nat) || ((28 <=? n)%nat && (n <=? 30)%nat).

Definition CR : ascii := ascii_of_nat 13.
Definition LF : ascii := ascii_of_nat 10.

(** [s.splitlines()]: the pieces between line boundaries, CR LF counting as
    one boundary, and no empty piece after the last boundary.  [after_cr]
    tells that the character before was a CR; [cur] is the piece being
    read. *)
Fixpoint splitlines (after_cr : bool) (cur l : list ascii) : list (list ascii) :=
  match l with
  | [] => match cur with [] => [] | _ => [cur] end
  | c :: t =>
      if after_cr && bool_decide (c = LF) then splitlines false cur t
      else if linebreak c then cur :: splitlines (bool_decide (c = CR)) [] t
      else splitlines false (cur ++ [c]) t
  end.

End Markup.

(** [nl2br_filter] of [create_app]:
    [Markup("<br>".join(escape(s).splitlines()))], and [""] for [None]. *)
Definition nl2br_filter (s : option string) : string :=
  match s with
  | None => ""
  | Some s =>
      Py.str (Werkzeug.join (Py.chars "<br>")
                (Markup.splitlines false [] (Py.chars (Markup.escape s))))
  end.

(** ** The data model ([models.py])

    A timestamp is the reading of the UTC clock, an integer. *)
Module Item.
Record t := { id : Z; title : string; description : option string; created_at : Z }.
End Item.

(** Modelled from the spec: [models.py] declares only [Item]; the classes
    [Admin], [Student] and [Application] that [app.py] imports from it are
    missing.  Attributes as in the spec's data model; the password is kept as
    a hash. *)
Module Admin.
Record t := { id : Z; username : string; password_hash : string }.
End Admin.

Module Student.
Record t := { id : Z; username : string; email : string; password_hash : string }.
End Student.

Module Application.
Record t := {
  id : Z;
  student_id : Z;
  resume_filename : string;
  status : string;
  created_at : Z;
  approved_at : option Z
}.

(** Modelled from the spec: the constructor call
    [Application(student_id=..., resume_filename=...)] followed by the
    insert; [status] defaults to ["Pending"], [created_at] to the time of the
    insert, and [approved_at] is nullable with no default. *)
Definition new (fresh_id sid : Z) (fname : string) (now : Z) : t :=
  {| id := fresh_id; student_id := sid; resume_filename := fname;
     status := "Pending"; created_at := now; approved_at := None |}.

(** The two assignments of [approve_application]. *)
Definition approve (now : Z) (a : t) : t :=
  {| id := id a; student_id := student_id a; resume_filename := resume_filename a;
     status := "Approved"; created_at := created_at a; approved_at := Some now |}.
End Application.

(** The tables, each in insertion order. *)
Record Database := {
  items : list Item.t;
  admins : list Admin.t;
  students : list Student.t;
  applications : list Application.t
}.

Definition empty_db : Database :=
  {| items := []; admins := []; students := []; applications := [] |}.

(** An integer primary key: one more than the largest key of the table. *)
Definition fresh_id (ids : list Z) : Z := 1 + foldr Z.max 0 ids.

(** [Model.query.get(pk)]: the row [WHERE id = pk], if any. *)
Definition get_by {A : Type} (key : A → Z) (pk : Z) (rows : list A) : option A :=
  head (filter (λ r, key r = pk) rows).

(** [Model.query.filter_by(col=v).first()] *)
Definition first_by {A : Type} (col : A → string) (v : string) (rows : list A) : option A :=
  head (filter (λ r, col r = v) rows).

(** [UPDATE ... WHERE id = pk]: what a commit writes for a changed row. *)
Definition update_by {A : Type} (key : A → Z) (pk : Z) (f : A → A) (rows : list A) : list A :=
  (λ r, if decide (key r = pk) then f r else r) <$> rows.

(** [DELETE ... WHERE id = pk] *)
Definition delete_by {A : Type} (key : A → Z) (pk : Z) (rows : list A) : list A :=
  filter (λ r, key r ≠ pk) rows.

(** ** The session

    Flask's session is a dictionary.  The program stores integers under the
    keys ["admin_id"] and ["student_id"]; [flash] keeps its queue of
    (category, message) pairs in the same dictionary, so [session.clear()]
    empties both. *)
Record Session := { marks : gmap string Z; flashes : list (string * string) }.

Definition empty_session : Session := {| marks := ∅; flashes := [] |}.

(** The upload directory maps a path to the bytes written there. *)
Record World := { db : Database; files_on_disk : gmap string string; session : Session }.

(** ** Requests and responses *)
Record Request := {
  method : string;
  url : string;
  args : gmap string string;
  form : gmap string string;
  files : gmap string Werkzeug.FileStorage;
  utcnow : Z
}.

(** One constructor per view function, with the variable part of its URL
    rule; [url_for] names a view the same way. *)
Inductive Endpoint :=
| admin_register_ep | admin_login_ep | logout_ep
| student_register_ep | student_login_ep | student_logout_ep
| upload_resume_ep | student_dashboard_ep
| admin_view_applications_ep | approve_application_ep (app_id : Z)
| index_ep | detail_ep (item_id : Z)
| create_ep | edit_ep (item_id : Z) | delete_ep (item_id : Z).

(** [Pagination]: the page asked for and the rows on it. *)
Record Pagination := { page : Z; per_page : Z; page_items : list Item.t; total : nat }.

(** A value handed to a template. *)
Inductive Value :=
| VNone
| VStr (s : string)
| VItem (i : Item.t)
| VStudent (s : option Student.t)
| VApplications (l : list Application.t)
| VPage (p : Pagination).

Inductive Location := url_for (e : Endpoint) | to_url (u : string).

Inductive Exception := AttributeError | KeyError | NotFound.

Inductive Response :=
| render_template (name : string) (context : list (string * Value))
| redirect (l : Location)
| not_found_page                      (* [render_template("404.html"), 404] *)
| options_response                    (* the automatic answer to [OPTIONS] *)
| method_not_allowed                  (* 405, from the routing *)
| server_error (e : Exception).       (* 500: an exception no handler caught *)

(** ** The handler monad

    A handler runs in a world, may change it, and ends with a value or with
    an exception; what was done before an exception stays done (the file
    written, the session changed).  Every handler commits right after it
    changes a row, so a table changes in one piece. *)
Definition M (A : Type) : Type := World → (Exception + A) * World.

Definition ret {A : Type} (a : A) : M A := λ w, (inr a, w).

Definition bind {A B : Type} (m : M A) (k : A → M B) : M B :=
  λ w, match m w with
       | (inl e, w') => (inl e, w')
       | (inr a, w') => k a w'
       end.

Definition raise {A : Type} (e : Exception) : M A := λ w, (inl e, w).

Global Instance M_ret : MRet M := @ret.
Global Instance M_bind : MBind M := λ A B k m, bind m k.

Definition get_db : M Database := λ w, (inr (db w), w).

Definition put_db (d : Database) : M unit :=
  λ w, (inr (), {| db := d; files_on_disk := files_on_disk w; session := session w |}).

Definition update_session (f : Session → Session) : M unit :=
  λ w, (inr (), {| db := db w; files_on_disk := files_on_disk w; session := f (session w) |}).

(** [session.get(key)] *)
Definition session_get (key : string) : M (option Z) :=
  λ w, (inr (marks (session w) !! key), w).

(** [session[key]] *)
Definition session_item (key : string) : M Z :=
  λ w, match marks (session w) !! key with
       | Some v => (inr v, w)
       | None => (inl KeyError, w)
       end.

(** [session[key] = v] *)
Definition session_set (key : string) (v : Z) : M unit :=
  update_session (λ s, {| marks := <[key := v]> (marks s); flashes := flashes s |}).

(** [session.pop(key, None)] *)
Definition session_pop (key : string) : M unit :=
  update_session (λ s, {| marks := delete key (marks s); flashes := flashes s |}).

(** [session.clear()] *)
Definition session_clear : M unit := update_session (λ _, empty_session).

(** [flash(message, category)] *)
Definition flash (message category : string) : M unit :=
  update_session (λ s, {| marks := marks s; flashes := flashes s ++ [(category, message)] |}).

(** [file.save(path)] *)
Definition save (f : Werkzeug.FileStorage) (path : string) : M unit :=
  λ w, (inr (), {| db := db w;
                   files_on_disk := <[path := Werkzeug.stream f]> (files_on_disk w);
                   session := session w |}).

(** [bool(x)] for an integer or [None]. *)
Definition truthy_id (o : option Z) : bool :=
  match o with Some n => negb (n =? 0) | None => false end.

(** [Model.query.get_or_404(pk)] *)
Definition get_or_404 {A : Type} (key : A → Z) (pk : Z) (rows : list A) : M A :=
  match get_by key pk rows with
  | Some r => ret r
  | None => raise NotFound
  end.

(** [request.form.get(key).strip()]: [None] has no [strip]. *)
Definition form_get_strip (req : Request) (key : string) : M string :=
  match form req !! key with
  | Some v => ret (Py.strip v)
  | None => raise AttributeError
  end.

(** [request.args.get(key, default, type=int)] *)
Definition args_get_int (req : Request) (key : string) (default : Z) : Z :=
  match args req !! key with
  | Some v => match Py.int v with Some n => n | None => default end
  | None => default
  end.

(** ** The two decorators *)
Definition admin_login_required (f : Request → M Response) : Request → M Response :=
  λ req,
    a ← session_get "admin_id";
    if negb (truthy_id a) then
      flash "Please log in as admin." "error";;
      ret (redirect (url_for admin_login_ep))
    else f req.

Definition student_login_required (f : Request → M Response) : Request → M Response :=
  λ req,
    s ← session_get "student_id";
    if negb (truthy_id s) then
      flash "Please log in as a student." "error";;
      ret (redirect (url_for student_login_ep))
    else f req.

(** ** The route handlers of [create_app] *)

Definition UPLOAD_FOLDER : string := "static/uploads".
Definition ALLOWED_EXTENSIONS : list string := ["pdf"; "doc"; "docx"].

Definition allowed_file (filename : string) : bool :=
  Py.has_dot filename &&
  bool_decide (Py.lower (Py.rsplit_dot_1 filename) ∈ ALLOWED_EXTENSIONS).

(** Rows insert at the end of their table, under a fresh key. *)
Definition add_item (title : string) (description : option string) (now : Z) : M unit :=
  d ← get_db;
  put_db {| items := items d ++ [ {| Item.id := fresh_id (Item.id <$> items d);
                                     Item.title := title;
                                     Item.description := description;
                                     Item.created_at := now |} ];
            admins := admins d; students := students d;
            applications := applications d |}.

Definition set_items (l : list Item.t) : M unit :=
  d ← get_db;
  put_db {| items := l; admins := admins d; students := students d;
            applications := applications d |}.

Definition add_application (sid : Z) (fname : string) (now : Z) : M unit :=
  d ← get_db;
  put_db {| items := items d; admins := admins d; students := students d;
            applications := applications d ++
              [Application.new (fresh_id (Application.id <$> applications d)) sid fname now] |}.

Definition set_applications (l : list Application.t) : M unit :=
  d ← get_db;
  put_db {| items := items d; admins := admins d; students := students d;
            applications := l |}.

(** [order_by(created_at.desc())]: newest first.  SQL leaves the order of
    rows of the same time to the database; here they stay in the order of
    their table. *)
Fixpoint insert_desc {A} (key : A → Z) (x : A) (l : list A) : list A :=
  match l with
  | [] => [x]
  | y :: t => if decide (key x < key y) then y :: insert_desc key x t else x :: l
  end.

Definition order_by_desc {A} (key : A → Z) (l : list A) : list A :=
  foldr (insert_desc key) [] l.

Definition newer_item (a b : Item.t) : Prop := Item.created_at b ≤ Item.created_at a.
Definition newer_application (a b : Application.t) : Prop :=
  Application.created_at b ≤ Application.created_at a.

(** [query.paginate(page=page, per_page=per_page, error_out=False)]: a page
    or a page size below one falls back to its default (1 and 20), and a
    page past the end has no rows.  The offset [(page - 1) * per_page] is an
    unbounded integer, as Python's is; the database takes it as a 64-bit
    integer, so this is the result of the query for an offset below
    [2 ^ 63]. *)
Definition paginate (rows : list Item.t) (page per_page : Z) : Pagination :=
  let page := if decide (page < 1) then 1 else page in
  let per_page := if decide (per_page < 1) then 20 else per_page in
  {| page := page;
     per_page := per_page;
     page_items := take (Z.to_nat per_page) (drop (Z.to_nat ((page - 1) * per_page)) rows);
     total := length rows |}.

Section Handlers.

(** Modelled from the spec: [set_password] and [check_password] belong to the
    missing classes [Admin] and [Student]; the spec asks for a one-way hash
    with a verification function, taken here as parameters. *)
Variable generate_password_hash : string → string.
Variable check_password_hash : string → string → bool.

Definition add_admin (username password : string) : M unit :=
  d ← get_db;
  put_db {| items := items d;
            admins := admins d ++ [ {| Admin.id := fresh_id (Admin.id <$> admins d);
                                       Admin.username := username;
                                       Admin.password_hash := generate_password_hash password |} ];
            students := students d; applications := applications d |}.

Definition add_student (username email password : string) : M unit :=
  d ← get_db;
  put_db {| items := items d; admins := admins d;
            students := students d ++
              [ {| Student.id := fresh_id (Student.id <$> students d);
                   Student.username := username;
                   Student.email := email;
                   Student.password_hash := generate_password_hash password |} ];
            applications := applications d |}.

Definition admin_register (req : Request) : M Response :=
  if decide (method req = "POST") then
    username ← form_get_strip req "username";
    password ← form_get_strip req "password";
    if negb (Py.truthy username) || negb (Py.truthy password) then
      flash "Username and password required." "error";;
      ret (render_template "admin_register.html" [])
    else
      d ← get_db;
      if first_by Admin.username username (admins d) is Some _ then
        flash "Username already taken." "error";;
        ret (render_template "admin_register.html" [])
      else
        add_admin username password;;
        flash "Admin registered successfully." "success";;
        ret (redirect (url_for admin_login_ep))
  else ret (render_template "admin_register.html" []).

Definition admin_login (req : Request) : M Response :=
  if decide (method req = "POST") then
    username ← form_get_strip req "username";
    password ← form_get_strip req "password";
    d ← get_db;
    match first_by Admin.username username (admins d) with
    | Some admin =>
        if check_password_hash (Admin.password_hash admin) password then
          session_clear;;
          session_set "admin_id" (Admin.id admin);;
          flash "Logged in successfully." "success";;
          ret (redirect (url_for index_ep))
        else
          flash "Invalid username or password." "error";;
          ret (render_template "admin_login.html" [])
    | None =>
        flash "Invalid username or password." "error";;
        ret (render_template "admin_login.html" [])
    end
  else ret (render_template "admin_login.html" []).

Definition logout (req : Request) : M Response :=
  session_pop "admin_id";;
  flash "Logged out." "info";;
  ret (redirect (url_for index_ep)).

Definition student_register (req : Request) : M Response :=
  if decide (method req = "POST") then
    username ← form_get_strip req "username";
    email ← form_get_strip req "email";
    password ← form_get_strip req "password";
    if negb (Py.truthy username) || negb (Py.truthy email) || negb (Py.truthy password) then
      flash "All fields are required." "error";;
      ret (render_template "student_register.html" [])
    else
      d ← get_db;
      if bool_decide (is_Some (first_by Student.username username (students d))) ||
         bool_decide (is_Some (first_by Student.email email (students d))) then
        flash "Username or email already taken." "error";;
        ret (render_template "student_register.html" [])
      else
        add_student username email password;;
        flash "Registered successfully. Please login." "success";;
        ret (redirect (url_for student_login_ep))
  else ret (render_template "student_register.html" []).

Definition student_login (req : Request) : M Response :=
  if decide (method req = "POST") then
    username ← form_get_strip req "username";
    password ← form_get_strip req "password";
    d ← get_db;
    match first_by Student.username username (students d) with
    | Some student =>
        if check_password_hash (Student.password_hash student) password then
          session_clear;;
          session_set "student_id" (Student.id student);;
          flash "Logged in successfully." "success";;
          ret (redirect (url_for student_dashboard_ep))
        else
          flash "Invalid username or password." "error";;
          ret (render_template "student_login.html" [])
    | None =>
        flash "Invalid username or password." "error";;
        ret (render_template "student_login.html" [])
    end
  else ret (render_template "student_login.html" []).

Definition student_logout (req : Request) : M Response :=
  session_pop "student_id";;
  flash "Logged out." "info";;
  ret (redirect (url_for index_ep)).

(** [student.id] for what [Student.query.get] returned: [None] has no [id]. *)
Definition id_of (student : option Student.t) : M Z :=
  match student with
  | Some s => ret (Student.id s)
  | None => raise AttributeError
  end.

Definition upload_resume : Request → M Response :=
  student_login_required (λ req,
    sid ← session_item "student_id";
    d ← get_db;
    let student := get_by Student.id sid (students d) in
    let form_page := render_template "upload_resume.html" [("student", VStudent student)] in
    if decide (method req = "POST") then
      match files req !! "resume" with
      | None =>
          flash "No file part." "error";;
          ret (redirect (to_url (url req)))
      | Some file =>
          if decide (Werkzeug.filename file = "") then
            flash "No selected file." "error";;
            ret (redirect (to_url (url req)))
          else if Werkzeug.file_truthy file && allowed_file (Werkzeug.filename file) then
            let filename := Werkzeug.secure_filename (Werkzeug.filename file) in
            let path := Werkzeug.path_join UPLOAD_FOLDER filename in
            save file path;;
            student_id ← id_of student;
            add_application student_id filename (utcnow req);;
            flash "Resume uploaded successfully." "success";;
            ret (redirect (url_for student_dashboard_ep))
          else ret form_page
      end
    else ret form_page).

(** Modelled from the spec: [student.applications] is the relationship of the
    missing class [Student], the applications whose [student_id] is the
    student's key. *)
Definition applications_of (s : Student.t) (d : Database) : list Application.t :=
  filter (λ a, Application.student_id a = Student.id s) (applications d).

Definition student_dashboard : Request → M Response :=
  student_login_required (λ req,
    sid ← session_item "student_id";
    d ← get_db;
    match get_by Student.id sid (students d) with
    | Some student =>
        ret (render_template "student_dashboard.html"
               [("student", VStudent (Some student));
                ("applications", VApplications (applications_of student d))])
    | None => raise AttributeError
    end).

Definition admin_view_applications : Request → M Response :=
  admin_login_required (λ req,
    d ← get_db;
    ret (render_template "admin_applications.html"
           [("applications", VApplications (order_by_desc Application.created_at (applications d)))])).

Definition approve_application (app_id : Z) : Request → M Response :=
  admin_login_required (λ req,
    d ← get_db;
    app_record ← get_or_404 Application.id app_id (applications d);
    set_applications
      (update_by Application.id (Application.id app_record)
                 (Application.approve (utcnow req)) (applications d));;
    flash "Application approved." "success";;
    ret (redirect (url_for admin_view_applications_ep))).

Definition index (req : Request) : M Response :=
  let page := args_get_int req "page" 1 in
  let per_page := 6 in
  d ← get_db;
  let items := paginate (order_by_desc Item.created_at (items d)) page per_page in
  ret (render_template "list.html" [("items", VPage items)]).

Definition detail (item_id : Z) (req : Request) : M Response :=
  d ← get_db;
  item ← get_or_404 Item.id item_id (items d);
  ret (render_template "detail.html" [("item", VItem item)]).

(** A template argument that is a string or [None]. *)
Definition opt_value (o : option string) : Value :=
  match o with Some s => VStr s | None => VNone end.

Definition create : Request → M Response :=
  admin_login_required (λ req,
    if decide (method req = "POST") then
      let title := Py.strip (Py.or_empty (form req !! "title")) in
      let description := Py.or_None (Py.strip (Py.or_empty (form req !! "description"))) in
      if negb (Py.truthy title) then
        flash "Title is required." "error";;
        ret (render_template "create.html"
               [("title", VStr title); ("description", opt_value description)])
      else
        add_item title description (utcnow req);;
        flash "Item created successfully." "success";;
        ret (redirect (url_for index_ep))
    else ret (render_template "create.html" [("title", VStr ""); ("description", VStr "")])).

Definition edit (item_id : Z) : Request → M Response :=
  admin_login_required (λ req,
    d ← get_db;
    item ← get_or_404 Item.id item_id (items d);
    if decide (method req = "POST") then
      let title := Py.strip (Py.or_empty (form req !! "title")) in
      let description := Py.or_None (Py.strip (Py.or_empty (form req !! "description"))) in
      if negb (Py.truthy title) then
        flash "Title is required." "error";;
        ret (render_template "edit.html"
               [("item", VItem item); ("title", VStr title);
                ("description", opt_value description)])
      else
        set_items (update_by Item.id (Item.id item)
                     (λ i, {| Item.id := Item.id i; Item.title := title;
                              Item.description := description;
                              Item.created_at := Item.created_at i |})
                     (items d));;
        flash "Item updated." "success";;
        ret (redirect (url_for (detail_ep (Item.id item))))
    else
      ret (render_template "edit.html"
             [("item", VItem item); ("title", VStr (Item.title item));
              ("description", VStr (Py.or_empty (Item.description item)))])).

Definition delete (item_id : Z) : Request → M Response :=
  admin_login_required (λ req,
    d ← get_db;
    item ← get_or_404 Item.id item_id (items d);
    set_items (delete_by Item.id (Item.id item) (items d));;
    flash "Item deleted." "info";;
    ret (redirect (url_for index_ep))).

(** ** Routing: the [app.route] table and the 404 error handler *)
Definition view (e : Endpoint) : Request → M Response :=
  match e with
  | admin_register_ep => admin_register
  | admin_login_ep => admin_login
  | logout_ep => logout
  | student_register_ep => student_register
  | student_login_ep => student_login
  | student_logout_ep => student_logout
  | upload_resume_ep => upload_resume
  | student_dashboard_ep => student_dashboard
  | admin_view_applications_ep => admin_view_applications
  | approve_application_ep app_id => approve_application app_id
  | index_ep => index
  | detail_ep item_id => detail item_id
  | create_ep => create
  | edit_ep item_id => edit item_id
  | delete_ep item_id => delete item_id
  end.

(** The [methods] argument of each rule ([GET] when there is none). *)
Definition methods (e : Endpoint) : list string :=
  match e with
  | admin_register_ep | admin_login_ep | student_register_ep | student_login_ep
  | upload_resume_ep | create_ep | edit_ep _ => ["GET"; "POST"]
  | approve_application_ep _ | delete_ep _ => ["POST"]
  | _ => ["GET"]
  end.

(** Flask answers [HEAD] wherever [GET] is allowed. *)
Definition allows (e : Endpoint) (m : string) : bool :=
  bool_decide (m ∈ methods e) ||
  (bool_decide (m = "HEAD") && bool_decide ("GET" ∈ methods e)).

(** One request: Flask answers [OPTIONS] itself, the routing refuses a
    method the rule does not list, the view runs, [NotFound] goes to the 404
    error handler and any other exception ends as a server error. *)
Definition step (e : Endpoint) (req : Request) (w : World) : Response * World :=
  if decide (method req = "OPTIONS") then (options_response, w)
  else if allows e (method req) then
    match view e req w with
    | (inr r, w') => (r, w')
    | (inl NotFound, w') => (not_found_page, w')
    | (inl ex, w') => (server_error ex, w')
    end
  else (method_not_allowed, w).

(** The server and its clients: the tables and the upload directory are
    shared, the session travels with each client's cookie; a client that has
    no cookie yet has the empty session. *)
Record Server := {
  server_db : Database;
  server_files : gmap string string;
  cookies : gmap nat Session
}.

Definition session_of (client : nat) (s : Server) : Session :=
  default empty_session (cookies s !! client).

Definition world_of (client : nat) (s : Server) : World :=
  {| db := server_db s; files_on_disk := server_files s; session := session_of client s |}.

Definition serve (client : nat) (e : Endpoint) (req : Request) (s : Server)
  : Response * Server :=
  let (r, w) := step e req (world_of client s) in
  (r, {| server_db := db w; server_files := files_on_disk w;
         cookies := <[client := session w]> (cookies s) |}).

(** The requests of all clients, in the order they arrive. *)
Fixpoint run (reqs : list (nat * Endpoint * Request)) (s : Server) : Server :=
  match reqs with
  | [] => s
  | (client, e, req) :: rest => run rest (serve client e req s).2
  end.

End Handlers.

(** ** A concrete setting for the examples

    A stand-in for the hash and its check, and a student with one account. *)
Definition demo_hash (password : string) : string := "hash$" +:+ password.
Definition demo_check (hash password : string) : bool :=
  bool_decide (hash = demo_hash password).

Definition empty_world : World :=
  {| db := empty_db; files_on_disk := ∅; session := empty_session |}.

Definition request (m : string) (form : gmap string string) (now : Z) : Request :=
  {| method := m; url := "/"; args := ∅; form := form; files := ∅; utcnow := now |}.

(** ** Vocabulary of the properties *)

(** The session key the decorator of a view asks for, read off the
    [@admin_login_required] and [@student_login_required] lines. *)
Definition guard (e : Endpoint) : option string :=
  match e with
  | upload_resume_ep | student_dashboard_ep => Some "student_id"
  | admin_view_applications_ep | approve_application_ep _
  | create_ep | edit_ep _ | delete_ep _ => Some "admin_id"
  | _ => None
  end.

(** Where a guard sends the visitor, and what it flashes. *)
Definition login_page (key : string) : Endpoint :=
  if decide (key = "admin_id") then admin_login_ep else student_login_ep.

Definition login_notice (key : string) : string :=
  if decide (key = "admin_id") then "Please log in as admin."
  else "Please log in as a student.".

(** The world after [flash(message, category)] and nothing else. *)
Definition flashed (category message : string) (w : World) : World :=
  {| db := db w; files_on_disk := files_on_disk w;
     session := {| marks := marks (session w);
                   flashes := flashes (session w) ++ [(category, message)] |} |}.

(** The world with another [applications] table. *)
Definition with_applications (l : list Application.t) (w : World) : World :=
  {| db := {| items := items (db w); admins := admins (db w);
              students := students (db w); applications := l |};
     files_on_disk := files_on_disk w; session := session w |}.

(** The world with another [items] table. *)
Definition with_items (l : list Item.t) (w : World) : World :=
  {| db := {| items := l; admins := admins (db w);
              students := students (db w); applications := applications (db w) |};
     files_on_disk := files_on_disk w; session := session w |}.

(** Alice the admin, Bob the student and Bob's first application. *)
Definition alice : Admin.t :=
  {| Admin.id := 1; Admin.username := "alice"; Admin.password_hash := demo_hash "pw1" |}.

Definition bob : Student.t :=
  {| Student.id := 1; Student.username := "bob"; Student.email := "bob@x.com";
     Student.password_hash := demo_hash "pw2" |}.

Definition demo_db : Database :=
  {| items := []; admins := [alice]; students := [bob];
     applications := [Application.new 1 1 "resume.pdf" 10] |}.

Definition logged_in (key : string) (pk : Z) : Session :=
  {| marks := {[ key := pk ]}; flashes := [] |}.

Definition admin_world : World :=
  {| db := demo_db; files_on_disk := ∅; session := logged_in "admin_id" 1 |}.

Definition student_world : World :=
  {| db := demo_db; files_on_disk := ∅; session := logged_in "student_id" 1 |}.

Definition visitor_world : World :=
  {| db := demo_db; files_on_disk := ∅; session := empty_session |}.

(** A field that is empty or holds whitespace only. *)
Definition blank (s : string) : Prop := Forall (λ c, Py.isspace c = true) (Py.chars s).

(** ASCII text: every character is below 128. *)
Definition ascii_text (s : string) : Prop :=
  Forall (λ c, Werkzeug.is_ascii c = true) (Py.chars s).

(** A field of a form or of a query string that, when present, is ASCII
    text. *)
Definition ascii_field (fields : gmap string string) (key : string) : Prop :=
  ∀ v, fields !! key = Some v → ascii_text v.

(** The description a rejected item form gets back: the submitted one
    without the whitespace around it, or [None] when nothing is left. *)
Definition trimmed_description (submitted : option string) : Value :=
  match submitted with
  | Some d => if decide (Py.strip d = "") then VNone else VStr (Py.strip d)
  | None => VNone
  end.

(** The world after an accepted upload: the file on disk and the new row. *)
Definition uploaded (path content : string) (a : Application.t) (w : World) : World :=
  {| db := {| items := items (db w); admins := admins (db w); students := students (db w);
              applications := applications (db w) ++ [a] |};
     files_on_disk := <[path := content]> (files_on_disk w);
     session := session w |}.

(** An ASCII letter. *)
Definition alpha (c : ascii) : bool :=
  let n := nat_of_ascii c in
  ((65 <=? n)%nat && (n <=? 90)%nat) || ((97 <=? n)%nat && (n <=? 122)%nat).

(** Bob's upload of a resume whose name tries to leave the folder. *)
Definition resume_file : Werkzeug.FileStorage :=
  {| Werkzeug.filename := "../My resume.PDF"; Werkzeug.stream := "%PDF" |}.

Definition upload_request : Request :=
  {| method := "POST"; url := "/student/upload"; args := ∅; form := ∅;
     files := {[ "resume" := resume_file ]}; utcnow := 20 |}.

(** A catalog of one item, and a listing request with a page parameter. *)
Definition widget : Item.t :=
  {| Item.id := 1; Item.title := "Widget"; Item.description := None; Item.created_at := 5 |}.

Definition catalog_world : World :=
  {| db := {| items := [widget]; admins := []; students := []; applications := [] |};
     files_on_disk := ∅; session := empty_session |}.

Definition listing (page : string) : Request :=
  {| method := "GET"; url := "/"; args := {[ "page" := page ]}; form := ∅; files := ∅;
     utcnow := 0 |}.

(** The page number the listing works with, from the query string: a
    missing parameter, one that [int] rejects, and a number below one all
    mean the first page. *)
Definition effective_page (req : Request) : Z :=
  match args req !! "page" with
  | None => 1
  | Some v => match Py.int v with
              | None => 1
              | Some n => if decide (n < 1) then 1 else n
              end
  end.

(** The invariant of an Application row: one of the two statuses, and an
    approval time exactly when approved. *)
Definition application_ok (a : Application.t) : Prop :=
  (Application.status a = "Pending" ∨ Application.status a = "Approved") ∧
  (is_Some (Application.approved_at a) ↔ Application.status a = "Approved").

(** A row before and after some requests: the same row, with the status it
    had or moved from "Pending" to "Approved". *)
Definition status_step (a a' : Application.t) : Prop :=
  Application.id a' = Application.id a ∧
  Application.student_id a' = Application.student_id a ∧
  Application.resume_filename a' = Application.resume_filename a ∧
  (Application.status a' = Application.status a ∨
   (Application.status a = "Pending" ∧ Application.status a' = "Approved")).

(** A table before and after: every row is still there, in its place, and
    new rows follow. *)
Definition evolves (l l' : list Application.t) : Prop :=
  ∃ l1 l2, l' = l1 ++ l2 ∧ Forall2 status_step l l1.

(** At most one role is logged in. *)
Definition one_role (s : Session) : Prop :=
  ¬ (is_Some (marks s !! "admin_id") ∧ is_Some (marks s !! "student_id")).

(** The server before its first request. *)
Definition new_server : Server :=
  {| server_db := empty_db; server_files := ∅; cookies := ∅ |}.

(** Two browsers: Bob (client 1) registers, logs in and uploads a resume;
    Alice (client 2) registers, logs in and approves it twice. *)
Definition bob_and_alice : list (nat * Endpoint * Request) :=
  [ (1%nat, student_register_ep,
     request "POST" {[ "username" := "bob"; "email" := "bob@x.com"; "password" := "pw2" ]} 1);
    (1%nat, student_login_ep, request "POST" {[ "username" := "bob"; "password" := "pw2" ]} 2);
    (1%nat, upload_resume_ep, upload_request);
    (2%nat, admin_register_ep,
     request "POST" {[ "username" := "alice"; "password" := "pw1" ]} 30);
    (2%nat, admin_login_ep, request "POST" {[ "username" := "alice"; "password" := "pw1" ]} 31);
    (2%nat, approve_application_ep 1, request "POST" ∅ 40);
    (2%nat, approve_application_ep 1, request "POST" ∅ 50) ].

(** The message a rejected registration flashes: blank fields are reported
    before a taken name. *)
Definition admin_register_error (username password : string) : string :=
  if negb (Py.truthy (Py.strip username)) || negb (Py.truthy (Py.strip password))
  then "Username and password required." else "Username already taken.".

Definition student_register_error (username email password : string) : string :=
  if negb (Py.truthy (Py.strip username)) || negb (Py.truthy (Py.strip email))
     || negb (Py.truthy (Py.strip password))
  then "All fields are required." else "Username or email already taken.".

(** The characters [escape] replaces. *)
Definition markup_char (c : ascii) : bool :=
  bool_decide (c = "<"%char) || bool_decide (c = ">"%char) ||
  bool_decide (c = Markup.apos) || bool_decide (c = Markup.quot).

(** The row [edit] writes over an item. *)
Definition edited (title : string) (description : option string) (i : Item.t) : Item.t :=
  {| Item.id := Item.id i; Item.title := title; Item.description := description;
     Item.created_at := Item.created_at i |}.

(** The world with another [admins] or [students] table. *)
Definition with_admins (l : list Admin.t) (w : World) : World :=
  {| db := {| items := items (db w); admins := l; students := students (db w);
              applications := applications (db w) |};
     files_on_disk := files_on_disk w; session := session w |}.

Definition with_students (l : list Student.t) (w : World) : World :=
  {| db := {| items := items (db w); admins := admins (db w); students := l;
              applications := applications (db w) |};
     files_on_disk := files_on_disk w; session := session w |}.

(** The world after a login: the session holds the marker and the greeting,
    nothing else. *)
Definition signed_in (key : string) (pk : Z) (w : World) : World :=
  {| db := db w; files_on_disk := files_on_disk w;
     session := {| marks := <[key := pk]> ∅;
                   flashes := [("success", "Logged in successfully.")] |} |}.

(** The world after [file.save(path)] and nothing else. *)
Definition saved (path content : string) (w : World) : World :=
  {| db := db w; files_on_disk := <[path := content]> (files_on_disk w);
     session := session w |}.

(** A second resume whose name sanitizes to the name of [resume_file]. *)
Definition second_upload : Request :=
  {| method := "POST"; url := "/student/upload"; args := ∅; form := ∅;
     files := {[ "resume" := {| Werkzeug.filename := "My_resume.PDF";
                                Werkzeug.stream := "%PDF-2" |} ]};
     utcnow := 25 |}.

(** No two admins share a username, no two students a username or an
    email. *)
Definition names_unique (d : Database) : Prop :=
  NoDup (Admin.username <$> admins d) ∧
  NoDup (Student.username <$> students d) ∧
  NoDup (Student.email <$> students d).

(** The keys of a table are distinct. *)
Definition keys_distinct (d : Database) : Prop :=
  NoDup (Item.id <$> items d) ∧ NoDup (Admin.id <$> admins d) ∧
  NoDup (Student.id <$> students d).

(** Every item has a title that is not empty. *)
Definition titles_present (d : Database) : Prop :=
  Forall (λ i, Py.truthy (Item.title i) = true) (items d).

(** The markers of a session name existing accounts. *)
Definition markers_valid (d : Database) (s : Session) : Prop :=
  (∀ n, marks s !! "admin_id" = Some n → ∃ a, a ∈ admins d ∧ Admin.id a = n) ∧
  (∀ n, marks s !! "student_id" = Some n → ∃ st, st ∈ students d ∧ Student.id st = n).

(** An item whose title and description are as [create] and [edit] store
    them: trimmed, the title not empty, the description absent rather than
    empty. *)
Definition stored_form (i : Item.t) : Prop :=
  Py.strip (Item.title i) = Item.title i ∧ Item.title i ≠ "" ∧
  ∀ d, Item.description i = Some d → Py.strip d = d ∧ d ≠ "".

(** * Properties *)

(** Unfolds the monad and the session and database primitives. *)
Ltac unfold_m :=
  unfold get_or_404, form_get_strip, id_of, set_items, set_applications, add_item,
    add_application, add_admin, add_student in *;
  unfold session_get, session_item, session_set, session_pop, session_clear, flash, save in *;
  unfold mbind, M_bind, bind, mret, M_ret, ret, raise, get_db, put_db, update_session in *.

(** Decides the routing of a request whose method is known, and the
    [request.method == "POST"] tests of the view. *)
Ltac route Hm :=
  unfold step; rewrite ?Hm;
  rewrite (decide_False (P := _ = "OPTIONS")) by done;
  match goal with
  | |- context [allows ?e ?m] =>
      let b := eval vm_compute in (allows e m) in change (allows e m) with b
  end;
  cbv iota; cbn [view].

Ltac is_post Hm := rewrite ?Hm; rewrite ?decide_True by done.

Section Guards.

Variable f : Request → M Response.
Variables (req : Request) (w : World).

(** A falsy marker ([None] or 0) stops the request at the admin guard. *)
Lemma admin_guard_falsy :
  truthy_id (marks (session w) !! "admin_id") = false →
  admin_login_required f req w =
    (inr (redirect (url_for admin_login_ep)), flashed "error" "Please log in as admin." w).
Proof.
  intros H. unfold admin_login_required. unfold_m. cbn. by rewrite H.
Qed.

Lemma admin_guard_truthy :
  truthy_id (marks (session w) !! "admin_id") = true →
  admin_login_required f req w = f req w.
Proof.
  intros H. unfold admin_login_required. unfold_m. cbn. by rewrite H.
Qed.

Lemma student_guard_falsy :
  truthy_id (marks (session w) !! "student_id") = false →
  student_login_required f req w =
    (inr (redirect (url_for student_login_ep)), flashed "error" "Please log in as a student." w).
Proof.
  intros H. unfold student_login_required. unfold_m. cbn. by rewrite H.
Qed.

Lemma student_guard_truthy :
  truthy_id (marks (session w) !! "student_id") = true →
  student_login_required f req w = f req w.
Proof.
  intros H. unfold student_login_required. unfold_m. cbn. by rewrite H.
Qed.

End Guards.

(** C9. A request to a guarded route without the role's session marker is
    answered by the guard alone: a redirect to the role's login page and one
    flash message.  The wrapped handler [f] is arbitrary and has no part in
    the result, and the tables, the upload directory and the session marks
    are those of the world before. *)
Theorem guard_blocks_unauthenticated :
  (∀ f req w, marks (session w) !! "admin_id" = None →
     admin_login_required f req w =
       (inr (redirect (url_for admin_login_ep)), flashed "error" "Please log in as admin." w)) ∧
  (∀ f req w, marks (session w) !! "student_id" = None →
     student_login_required f req w =
       (inr (redirect (url_for student_login_ep)),
        flashed "error" "Please log in as a student." w)) ∧
  (∀ g c e key req w, guard e = Some key → marks (session w) !! key = None →
     view g c e req w =
       (inr (redirect (url_for (login_page key))), flashed "error" (login_notice key) w) ∧
     db (step g c e req w).2 = db w ∧
     files_on_disk (step g c e req w).2 = files_on_disk w).
Proof.
  split; [|split].
  - intros f req w H. apply admin_guard_falsy. by rewrite H.
  - intros f req w H. apply student_guard_falsy. by rewrite H.
  - intros g c e key req w Hg Hm.
    assert (view g c e req w =
      (inr (redirect (url_for (login_page key))), flashed "error" (login_notice key) w)) as Hv.
    { destruct e; simplify_eq/=;
        first [ apply admin_guard_falsy | apply student_guard_falsy ]; by rewrite Hm. }
    split; [done|]. unfold step. rewrite Hv.
    by destruct (decide _), (allows e (method req)).
Qed.

Lemma guard_blocks_unauthenticated_witness :
  view demo_hash demo_check (approve_application_ep 7) (request "POST" ∅ 100) empty_world =
    (inr (redirect (url_for admin_login_ep)),
     flashed "error" "Please log in as admin." empty_world).
Proof.
  exact (proj1 (proj2 (proj2 guard_blocks_unauthenticated) demo_hash demo_check
                  (approve_application_ep 7) "admin_id" (request "POST" ∅ 100) empty_world
                  eq_refl eq_refl)).
Defined.

(** The world after [session.pop(key, None)] and the flash of a logout. *)
Lemma logout_any_session req w :
  logout req w =
    (inr (redirect (url_for index_ep)),
     {| db := db w; files_on_disk := files_on_disk w;
        session := {| marks := base.delete "admin_id" (marks (session w));
                      flashes := flashes (session w) ++ [("info", "Logged out.")] |} |}).
Proof. reflexivity. Qed.

Lemma student_logout_any_session req w :
  student_logout req w =
    (inr (redirect (url_for index_ep)),
     {| db := db w; files_on_disk := files_on_disk w;
        session := {| marks := base.delete "student_id" (marks (session w));
                      flashes := flashes (session w) ++ [("info", "Logged out.")] |} |}).
Proof. reflexivity. Qed.

(** C4, as stated, fails: a GET of /admin/logout (and of /student/logout)
    with no marker in the session is handled as a logout and redirected to
    the index, not to a login page. *)
Lemma logout_without_marker_not_rejected :
  let req := request "GET" ∅ 0 in
  marks (session empty_world) !! "admin_id" = None ∧
  marks (session empty_world) !! "student_id" = None ∧
  (step demo_hash demo_check logout_ep req empty_world).1 = redirect (url_for index_ep) ∧
  (step demo_hash demo_check logout_ep req empty_world).1 ≠ redirect (url_for admin_login_ep) ∧
  (step demo_hash demo_check student_logout_ep req empty_world).1 = redirect (url_for index_ep) ∧
  (step demo_hash demo_check student_logout_ep req empty_world).1
    ≠ redirect (url_for student_login_ep).
Proof. cbv zeta. repeat split; by vm_compute. Qed.

(** C4, amended.  The logout routes carry no guard: every GET of
    /admin/logout, whatever the session holds, removes the admin marker if
    there is one, keeps every other mark, flashes "Logged out." and
    redirects to the index; /student/logout does the same with the student
    marker.  The tables and the upload directory are untouched. *)
Theorem logout_needs_no_login g c req w :
  method req = "GET" →
  step g c logout_ep req w =
    (redirect (url_for index_ep),
     {| db := db w; files_on_disk := files_on_disk w;
        session := {| marks := base.delete "admin_id" (marks (session w));
                      flashes := flashes (session w) ++ [("info", "Logged out.")] |} |}) ∧
  step g c student_logout_ep req w =
    (redirect (url_for index_ep),
     {| db := db w; files_on_disk := files_on_disk w;
        session := {| marks := base.delete "student_id" (marks (session w));
                      flashes := flashes (session w) ++ [("info", "Logged out.")] |} |}).
Proof.
  intros Hm. unfold step. rewrite Hm. split; reflexivity.
Qed.

Lemma logout_needs_no_login_witness :
  step demo_hash demo_check logout_ep (request "GET" ∅ 0) empty_world =
    (redirect (url_for index_ep),
     {| db := empty_db; files_on_disk := ∅;
        session := {| marks := base.delete "admin_id" ∅;
                      flashes := [("info", "Logged out.")] |} |}).
Proof.
  exact (proj1 (logout_needs_no_login demo_hash demo_check (request "GET" ∅ 0)
                  empty_world eq_refl)).
Defined.

(** ** Queries by key *)

(** The library functions and the queries stay folded under [cbn]. *)
Global Arguments Py.strip : simpl never.
Global Arguments Py.int : simpl never.
Global Arguments Py.lower : simpl never.
Global Arguments Py.rsplit_dot_1 : simpl never.
Global Arguments Werkzeug.secure_filename : simpl never.
Global Arguments Werkzeug.path_join : simpl never.
Global Arguments allowed_file : simpl never.
Global Arguments paginate : simpl never.
Global Arguments order_by_desc : simpl never.
Global Arguments fresh_id : simpl never.
Global Arguments get_by : simpl never.
Global Arguments first_by : simpl never.
Global Arguments update_by : simpl never.
Global Arguments delete_by : simpl never.

Section Queries.

Context {A : Type}.
Variable key : A → Z.

Lemma get_by_Some pk rows r :
  get_by key pk rows = Some r → key r = pk ∧ r ∈ rows.
Proof.
  unfold get_by. intros H.
  assert (r ∈ filter (λ r, key r = pk) rows) as Hin.
  { destruct (filter _ rows) as [|x l]; simplify_eq/=. left. }
  by apply list_elem_of_filter in Hin.
Qed.

Lemma get_by_None pk rows :
  get_by key pk rows = None ↔ ∀ r, r ∈ rows → key r ≠ pk.
Proof.
  unfold get_by. induction rows as [|x l IH]; simpl.
  - split; [intros _ r Hr; by apply elem_of_nil in Hr | done].
  - rewrite filter_cons. destruct (decide (key x = pk)) as [E|E]; simpl.
    + split; [done|]. intros H. exfalso. apply (H x); [left | done].
    + rewrite IH. split.
      * intros H r [->|Hr]%elem_of_cons; auto.
      * intros H r Hr. apply H. by right.
Qed.

Lemma get_by_update_by pk f rows :
  (∀ r, key (f r) = key r) →
  get_by key pk (update_by key pk f rows) = f <$> get_by key pk rows.
Proof.
  intros Hf. unfold get_by, update_by. induction rows as [|x l IH]; [done|].
  rewrite fmap_cons, !filter_cons.
  destruct (decide (key x = pk)) as [E|E].
  - rewrite decide_True by (by rewrite Hf). done.
  - rewrite decide_False by done. done.
Qed.

Lemma get_by_update_by_ne pk pk' f rows :
  (∀ r, key (f r) = key r) → pk' ≠ pk →
  get_by key pk' (update_by key pk f rows) = get_by key pk' rows.
Proof.
  intros Hf Hne. unfold get_by, update_by. induction rows as [|x l IH]; [done|].
  rewrite fmap_cons, !filter_cons.
  destruct (decide (key x = pk)) as [E|E].
  - rewrite Hf. rewrite !decide_False by congruence. done.
  - destruct (decide (key x = pk')); simpl; by rewrite ?IH.
Qed.

Lemma length_update_by pk f rows : length (update_by key pk f rows) = length rows.
Proof. unfold update_by. by rewrite length_fmap. Qed.

End Queries.

(** ** Approval *)

Lemma approve_approve now now' a :
  Application.approve now' (Application.approve now a) = Application.approve now' a.
Proof. done. Qed.

(** What [approve_application] does once the guard has let it pass. *)
Lemma approve_found app_id req w a :
  truthy_id (marks (session w) !! "admin_id") = true →
  get_by Application.id app_id (applications (db w)) = Some a →
  approve_application app_id req w =
    (inr (redirect (url_for admin_view_applications_ep)),
     flashed "success" "Application approved."
       (with_applications
          (update_by Application.id app_id (Application.approve (utcnow req))
             (applications (db w))) w)).
Proof.
  intros Hs Ha. unfold approve_application. rewrite admin_guard_truthy by done.
  unfold_m. cbn. rewrite Ha. cbn.
  by destruct (get_by_Some _ _ _ _ Ha) as [-> _].
Qed.

Lemma approve_missing app_id req w :
  truthy_id (marks (session w) !! "admin_id") = true →
  get_by Application.id app_id (applications (db w)) = None →
  approve_application app_id req w = (inl NotFound, w).
Proof.
  intros Hs Ha. unfold approve_application. rewrite admin_guard_truthy by done.
  unfold_m. cbn. by rewrite Ha.
Qed.

(** C1. For a logged-in admin: when an Application with the identifier
    exists, approval answers with the redirect to the applications list and
    leaves that Application with status "Approved" and the clock's reading
    as its approval timestamp, every other Application as it was; when none
    exists, the answer is the not-found page and the world is unchanged.
    A second approval, whatever the first left, stamps the timestamp with
    the clock of the second request. *)
Theorem approve_application_spec g c app_id req w :
  truthy_id (marks (session w) !! "admin_id") = true →
  method req = "POST" →
  (∀ a, get_by Application.id app_id (applications (db w)) = Some a →
     let w' := (step g c (approve_application_ep app_id) req w).2 in
     (step g c (approve_application_ep app_id) req w).1
       = redirect (url_for admin_view_applications_ep) ∧
     (∃ a', get_by Application.id app_id (applications (db w')) = Some a' ∧
            Application.status a' = "Approved" ∧
            Application.approved_at a' = Some (utcnow req) ∧
            a' = Application.approve (utcnow req) a) ∧
     (∀ pk, pk ≠ app_id →
        get_by Application.id pk (applications (db w')) =
        get_by Application.id pk (applications (db w))) ∧
     length (applications (db w')) = length (applications (db w)) ∧
     (∀ req2, method req2 = "POST" →
        let w'' := (step g c (approve_application_ep app_id) req2 w').2 in
        ∃ a'', get_by Application.id app_id (applications (db w'')) = Some a'' ∧
               Application.status a'' = "Approved" ∧
               Application.approved_at a'' = Some (utcnow req2))) ∧
  (get_by Application.id app_id (applications (db w)) = None →
     step g c (approve_application_ep app_id) req w = (not_found_page, w)).
Proof.
  intros Hs Hm. split.
  - intros a Ha. cbv zeta.
    assert (step g c (approve_application_ep app_id) req w =
      (redirect (url_for admin_view_applications_ep),
       flashed "success" "Application approved."
         (with_applications
            (update_by Application.id app_id (Application.approve (utcnow req))
               (applications (db w))) w))) as Hstep.
    { route Hm. by rewrite (approve_found _ _ _ a). }
    rewrite Hstep. cbn.
    assert (get_by Application.id app_id
              (update_by Application.id app_id (Application.approve (utcnow req))
                 (applications (db w))) = Some (Application.approve (utcnow req) a)) as Hget.
    { rewrite get_by_update_by by done. by rewrite Ha. }
    split; [done|]. split; [by eexists|]. split.
    { intros pk Hpk. by apply get_by_update_by_ne. }
    split; [apply length_update_by|].
    intros req2 Hm2.
    set (w1 := flashed _ _ _).
    assert (step g c (approve_application_ep app_id) req2 w1 =
      (redirect (url_for admin_view_applications_ep),
       flashed "success" "Application approved."
         (with_applications
            (update_by Application.id app_id (Application.approve (utcnow req2))
               (applications (db w1))) w1))) as Hstep2.
    { route Hm2. by rewrite (approve_found _ _ _ (Application.approve (utcnow req) a)). }
    rewrite Hstep2. cbn. rewrite get_by_update_by by done. rewrite Hget.
    by eexists.
  - intros Ha. route Hm. by rewrite approve_missing.
Qed.

Lemma approve_application_spec_witness :
  ∃ a', get_by Application.id 1
          (applications (db (step demo_hash demo_check (approve_application_ep 1)
                               (request "POST" ∅ 100) admin_world).2)) = Some a' ∧
        Application.status a' = "Approved" ∧
        Application.approved_at a' = Some 100 ∧
        a' = Application.approve 100 (Application.new 1 1 "resume.pdf" 10).
Proof.
  exact (proj1 (proj2 (proj1 (approve_application_spec demo_hash demo_check 1
                                (request "POST" ∅ 100) admin_world eq_refl eq_refl)
                         (Application.new 1 1 "resume.pdf" 10) eq_refl))).
Defined.

(** ** Registration and login forms *)

(** [request.form.get(key).strip()] on a form without the key raises, and
    the view stops there. *)
Lemma form_get_strip_missing req key w :
  form req !! key = None → form_get_strip req key w = (inl AttributeError, w).
Proof. intros H. unfold form_get_strip. by rewrite H. Qed.

(** C3 fails on the code: a POST to a registration or login route whose form
    has no [username] field is not answered with a flash message and the
    form; [None.strip()] raises [AttributeError] and the request ends as a
    server error, with the world as it was.  The views [create] and [edit]
    read their fields as [(request.form.get(...) or "").strip()] and do
    not have the defect. *)
Theorem post_without_username_raises g c req w :
  method req = "POST" →
  form req !! "username" = None →
  step g c admin_register_ep req w = (server_error AttributeError, w) ∧
  step g c admin_login_ep req w = (server_error AttributeError, w) ∧
  step g c student_register_ep req w = (server_error AttributeError, w) ∧
  step g c student_login_ep req w = (server_error AttributeError, w).
Proof.
  intros Hm Hu. unfold step. rewrite Hm.
  rewrite (decide_False (P := _ = "OPTIONS")) by done. cbn.
  unfold admin_register, admin_login, student_register, student_login.
  rewrite Hm. unfold_m. cbn. rewrite Hu. done.
Qed.

Lemma post_without_username_raises_witness :
  step demo_hash demo_check admin_register_ep (request "POST" ∅ 0) empty_world =
    (server_error AttributeError, empty_world).
Proof.
  exact (proj1 (post_without_username_raises demo_hash demo_check (request "POST" ∅ 0)
                  empty_world eq_refl eq_refl)).
Defined.

Lemma first_by_is_Some {A : Type} (col : A → string) v rows :
  is_Some (first_by col v rows) ↔ ∃ r, r ∈ rows ∧ col r = v.
Proof.
  unfold first_by. split.
  - intros [r Hr]. exists r.
    assert (r ∈ filter (λ r, col r = v) rows) as H.
    { destruct (filter _ rows) as [|x l]; simplify_eq/=. left. }
    apply list_elem_of_filter in H. tauto.
  - intros (r & Hin & Hc).
    assert (r ∈ filter (λ r, col r = v) rows) as H by by apply list_elem_of_filter.
    destruct (filter _ rows) as [|x l]; [by apply elem_of_nil in H | by eexists].
Qed.

(** C7 fails on the code: a registration POST whose username is that of an
    existing account is not always answered with an error message and the
    form.  Every field is read and stripped before the username is looked
    up, so when the form has no [password] field (for a student: no [email]
    or no [password] field) [None.strip()] raises [AttributeError] and the
    request ends as a server error.  The world stays as it was, so no row
    is created, but the client sees no message.  It is the defect of C3,
    met here on the way to the test for a taken name. *)
Theorem duplicate_without_password_raises g c req w u :
  method req = "POST" →
  form req !! "username" = Some u →
  ((∃ a, a ∈ admins (db w) ∧ Admin.username a = Py.strip u) →
   form req !! "password" = None →
   step g c admin_register_ep req w = (server_error AttributeError, w)) ∧
  ((∃ s, s ∈ students (db w) ∧
         (Student.username s = Py.strip u ∨
          ∃ e, form req !! "email" = Some e ∧ Student.email s = Py.strip e)) →
   form req !! "email" = None ∨ form req !! "password" = None →
   step g c student_register_ep req w = (server_error AttributeError, w)).
Proof.
  intros Hm Hu. split.
  - intros _ Hp. route Hm. unfold admin_register. is_post Hm. unfold_m. cbn.
    by rewrite Hu, Hp.
  - intros _ Hmiss. route Hm. unfold student_register. is_post Hm. unfold_m. cbn.
    rewrite Hu. cbn. destruct (form req !! "email") as [e|] eqn:He; [|done]. cbn.
    destruct Hmiss as [?|Hp]; [done|]. by rewrite Hp.
Qed.

Lemma duplicate_without_password_raises_witness :
  step demo_hash demo_check admin_register_ep
    (request "POST" {[ "username" := "alice" ]} 50) visitor_world =
    (server_error AttributeError, visitor_world).
Proof.
  refine (proj1 (duplicate_without_password_raises demo_hash demo_check
                   (request "POST" {[ "username" := "alice" ]} 50)
                   visitor_world "alice" eq_refl eq_refl) _ eq_refl).
  exists alice. split; [left | reflexivity].
Defined.

(** X25. A registration POST that carries all its fields, as ASCII text, and
    whose (trimmed) username is the username of an existing Admin, or for
    students whose username or email is that of an existing Student, is
    answered with the registration form and one error flash; the tables,
    the upload directory and the session marks stay as they were, so no
    Admin or Student row is created. *)
Theorem duplicate_registration_rejected g c req w :
  method req = "POST" →
  (∀ u p, form req !! "username" = Some u → form req !! "password" = Some p →
     ascii_text u → ascii_text p →
     (∃ a, a ∈ admins (db w) ∧ Admin.username a = Py.strip u) →
     step g c admin_register_ep req w =
       (render_template "admin_register.html" [],
        flashed "error" (admin_register_error u p) w)) ∧
  (∀ u e p, form req !! "username" = Some u → form req !! "email" = Some e →
     form req !! "password" = Some p →
     ascii_text u → ascii_text e → ascii_text p →
     (∃ s, s ∈ students (db w) ∧
           (Student.username s = Py.strip u ∨ Student.email s = Py.strip e)) →
     step g c student_register_ep req w =
       (render_template "student_register.html" [],
        flashed "error" (student_register_error u e p) w)).
Proof.
  intros Hm. split.
  - intros u p Hu Hp _ _ Hex. apply first_by_is_Some in Hex as [a Ha].
    route Hm. unfold admin_register, admin_register_error.
    is_post Hm. unfold_m. cbn. rewrite Hu, Hp. cbn.
    destruct (negb (Py.truthy (Py.strip u)) || negb (Py.truthy (Py.strip p))); cbn; [done|].
    by rewrite Ha.
  - intros u e p Hu He Hp _ _ _ (s & Hin & Hs).
    route Hm. unfold student_register, student_register_error.
    is_post Hm. unfold_m. cbn. rewrite Hu, He, Hp. cbn.
    destruct (negb (Py.truthy (Py.strip u)) || negb (Py.truthy (Py.strip e))
              || negb (Py.truthy (Py.strip p))); cbn; [done|].
    destruct Hs as [Hs|Hs].
    + rewrite bool_decide_eq_true_2; [done|]. apply first_by_is_Some; eauto.
    + rewrite (bool_decide_eq_true_2 (is_Some (first_by Student.email _ _)));
        [by rewrite orb_true_r|]. apply first_by_is_Some; eauto.
Qed.

Lemma duplicate_registration_rejected_witness :
  step demo_hash demo_check admin_register_ep
    (request "POST" {[ "username" := " alice "; "password" := "other" ]} 50) visitor_world =
    (render_template "admin_register.html" [],
     flashed "error" "Username already taken." visitor_world).
Proof.
  refine (proj1 (duplicate_registration_rejected demo_hash demo_check
                   (request "POST" {[ "username" := " alice "; "password" := "other" ]} 50)
                   visitor_world eq_refl) " alice " "other" eq_refl eq_refl _ _ _).
  - repeat constructor.
  - repeat constructor.
  - exists alice. split; [left | reflexivity].
Defined.

(** ** Trimming *)
Section Strip.

Variable p : ascii → bool.

Lemma lstrip_by_nil l :
  Py.lstrip_by p l = [] ↔ Forall (λ c, p c = true) l.
Proof.
  induction l as [|x l IH]; simpl; [done|].
  destruct (p x) eqn:E.
  - rewrite IH. split; [by constructor | by inversion 1].
  - split; [done|]. inversion 1; congruence.
Qed.

(** What [lstrip_by] leaves is empty or starts with a character it keeps. *)
Lemma lstrip_by_head l x t : Py.lstrip_by p l = x :: t → p x = false.
Proof.
  induction l as [|y l IH]; simpl; [done|].
  destruct (p y) eqn:E; [done|]. by intros [= <- _].
Qed.

Lemma strip_by_nil l :
  Py.strip_by p l = [] ↔ Forall (λ c, p c = true) l.
Proof.
  unfold Py.strip_by, Py.rstrip_by. split.
  - intros H. apply (f_equal reverse) in H. rewrite reverse_involutive in H.
    change (reverse []) with (@nil ascii) in H.
    apply lstrip_by_nil in H. rewrite Forall_reverse in H.
    destruct (Py.lstrip_by p l) as [|x t] eqn:E.
    + by apply lstrip_by_nil.
    + apply lstrip_by_head in E. inversion H; congruence.
  - intros H. apply lstrip_by_nil in H. by rewrite H.
Qed.

End Strip.

Lemma str_nil l : Py.str l = "" ↔ l = [].
Proof. by destruct l. Qed.

Lemma strip_blank s : Py.strip s = "" ↔ blank s.
Proof. unfold Py.strip, blank. by rewrite str_nil, strip_by_nil. Qed.

Lemma truthy_false s : Py.truthy s = false ↔ s = "".
Proof. by destruct s. Qed.

Lemma or_empty_Some s : Py.or_empty (Some s) = s.
Proof. by destruct s. Qed.

(** The title and the description as [create] and [edit] read them. *)
Lemma title_blank o :
  Py.strip (Py.or_empty o) = "" ↔ o = None ∨ ∃ t, o = Some t ∧ blank t.
Proof.
  destruct o as [t|].
  - rewrite or_empty_Some, strip_blank. split.
    + intros H. right. by exists t.
    + intros [?|(t' & ? & H)]; by simplify_eq.
  - split; [by left | reflexivity].
Qed.

Lemma description_trimmed o :
  opt_value (Py.or_None (Py.strip (Py.or_empty o))) = trimmed_description o.
Proof.
  destruct o as [d|]; [|reflexivity].
  rewrite or_empty_Some. unfold trimmed_description, Py.or_None.
  destruct (decide (Py.strip d = "")) as [->|Hne]; [done|].
  destruct (Py.truthy (Py.strip d)) eqn:E; [done|]. by apply truthy_false in E.
Qed.

(** ** Item forms *)

(** C8, as stated, fails: the form gets the input back trimmed, not as it was
    submitted.  A creation POST with the title of two spaces and the
    description [" x "] is re-rendered with the empty title and the
    description ["x"]. *)
Lemma create_redisplays_trimmed_input :
  let submitted : gmap string string := {[ "title" := "  "; "description" := " x " ]} in
  blank "  " ∧
  (step demo_hash demo_check create_ep (request "POST" submitted 0) admin_world).1 =
    render_template "create.html" [("title", VStr ""); ("description", VStr "x")] ∧
  (step demo_hash demo_check create_ep (request "POST" submitted 0) admin_world).1 ≠
    render_template "create.html" [("title", VStr "  "); ("description", VStr " x ")].
Proof.
  cbv zeta. split; [|split].
  - by apply strip_blank.
  - by vm_compute.
  - by vm_compute.
Qed.

(** C8, amended.  For a logged-in admin, a creation POST whose title is
    missing, empty or whitespace only persists nothing: the answer is the
    creation form with the error "Title is required.", the empty title and
    a description, and the world changes by that flash alone.  The
    description shown is, for a submitted description that is ASCII text,
    the submitted one with the whitespace around it removed ([None] when
    nothing is left or none was submitted).  An edit POST for an existing
    item validates the same way and leaves the item as it was. *)
Theorem blank_title_rejected g c req w :
  truthy_id (marks (session w) !! "admin_id") = true →
  method req = "POST" →
  (form req !! "title" = None ∨ ∃ t, form req !! "title" = Some t ∧ blank t) →
  ∃ shown,
    (ascii_field (form req) "description" →
       shown = trimmed_description (form req !! "description")) ∧
    step g c create_ep req w =
      (render_template "create.html" [("title", VStr ""); ("description", shown)],
       flashed "error" "Title is required." w) ∧
    (∀ item_id item, get_by Item.id item_id (items (db w)) = Some item →
       step g c (edit_ep item_id) req w =
         (render_template "edit.html"
            [("item", VItem item); ("title", VStr ""); ("description", shown)],
          flashed "error" "Title is required." w)).
Proof.
  intros Hs Hm Ht. apply title_blank in Ht.
  exists (trimmed_description (form req !! "description")).
  split; [done|]. split.
  - route Hm. unfold create. rewrite admin_guard_truthy by done.
    is_post Hm. rewrite Ht, description_trimmed. reflexivity.
  - intros item_id item Hi. route Hm. unfold edit.
    rewrite admin_guard_truthy by done. unfold_m. cbn. rewrite Hi. cbn.
    is_post Hm. rewrite Ht, description_trimmed. reflexivity.
Qed.

Lemma blank_title_rejected_witness :
  step demo_hash demo_check create_ep
    (request "POST" {[ "title" := "  "; "description" := " x " ]} 0) admin_world =
    (render_template "create.html" [("title", VStr ""); ("description", VStr "x")],
     flashed "error" "Title is required." admin_world).
Proof.
  destruct (blank_title_rejected demo_hash demo_check
              (request "POST" {[ "title" := "  "; "description" := " x " ]} 0)
              admin_world eq_refl eq_refl) as (shown & Hshown & Hstep & _).
  - right. exists "  ". split; [reflexivity|]. apply strip_blank. reflexivity.
  - rewrite Hstep, Hshown; [reflexivity|].
    intros v Hv. vm_compute in Hv. injection Hv as <-. repeat constructor.
Defined.

(** ** Uploads *)
Section StripKeeps.

Variable p : ascii → bool.
Variable P : ascii → Prop.

Lemma lstrip_by_Forall l : Forall P l → Forall P (Py.lstrip_by p l).
Proof.
  induction 1 as [|x l Hx Hl IH]; simpl; [done|].
  destruct (p x); [done | by constructor].
Qed.

Lemma strip_by_Forall l : Forall P l → Forall P (Py.strip_by p l).
Proof.
  intros H. unfold Py.strip_by, Py.rstrip_by.
  apply Forall_reverse, lstrip_by_Forall, Forall_reverse. by apply lstrip_by_Forall.
Qed.

End StripKeeps.

Lemma chars_str l : Py.chars (Py.str l) = l.
Proof. apply String.list_ascii_of_string_of_list_ascii. Qed.

Lemma str_chars s : Py.str (Py.chars s) = s.
Proof. apply String.string_of_list_ascii_of_string. Qed.

(** [secure_filename] returns characters of [[A-Za-z0-9_.-]] only. *)
Lemma secure_filename_safe s :
  Forall (λ c, Werkzeug.safe_char c = true) (Py.chars (Werkzeug.secure_filename s)).
Proof.
  unfold Werkzeug.secure_filename, Werkzeug.secure_chars. rewrite chars_str.
  apply strip_by_Forall. apply Forall_forall. intros c Hc.
  by apply list_elem_of_filter in Hc as [? _].
Qed.

Lemma safe_char_not_slash c : Werkzeug.safe_char c = true → c ≠ Werkzeug.slash.
Proof. intros H ->. by vm_compute in H. Qed.

Lemma string_app_chars a b : Py.chars (a +:+ b) = Py.chars a ++ Py.chars b.
Proof. induction a as [|x a IH]; simpl; [done|]. by rewrite IH. Qed.

(** A name without a slash lands in the upload folder. *)
Lemma path_join_upload name :
  Forall (λ c, Werkzeug.safe_char c = true) (Py.chars name) →
  Werkzeug.path_join UPLOAD_FOLDER name = "static/uploads/" +:+ name.
Proof.
  intros H. unfold Werkzeug.path_join, Werkzeug.starts_with_slash.
  destruct (Py.chars name) as [|x t] eqn:E; [done|].
  inversion_clear H as [|? ? Hx _]. apply safe_char_not_slash in Hx.
  by rewrite bool_decide_eq_false_2.
Qed.

(** *** The extension survives [secure_filename] *)

Lemma alpha_plain c :
  alpha c = true →
  Werkzeug.is_ascii c = true ∧ c ≠ Werkzeug.slash ∧ Py.isspace c = false ∧
  Werkzeug.safe_char c = true ∧ Werkzeug.dot_or_underscore c = false ∧ c ≠ Py.dot.
Proof. destruct c as [[] [] [] [] [] [] [] []]; vm_compute; intuition congruence. Qed.

Lemma lower_char_letter c x :
  Py.lower_char c = x → x ∈ Py.chars "pdfocx" → alpha c = true.
Proof.
  intros <- H.
  assert (bool_decide (Py.lower_char c ∈ Py.chars "pdfocx") = true) as Hb
    by by apply bool_decide_eq_true_2.
  clear H. revert Hb.
  destruct c as [[] [] [] [] [] [] [] []]; vm_compute; done.
Qed.

Lemma allowed_extension_letters ext :
  Py.lower (Py.str ext) ∈ ALLOWED_EXTENSIONS → ext ≠ [] ∧ Forall (λ c, alpha c = true) ext.
Proof.
  unfold Py.lower, ALLOWED_EXTENSIONS. rewrite chars_str, !elem_of_cons.
  intros H.
  assert (∃ e, e ∈ ["pdf"; "doc"; "docx"] ∧ Py.lower_char <$> ext = Py.chars e) as (e & He & Hx).
  { destruct H as [H|[H|[H|H]]]; [..|by apply elem_of_nil in H];
      apply (f_equal Py.chars) in H; rewrite chars_str in H;
      eexists; (split; [|exact H]); set_solver. }
  assert (Forall (λ x, x ∈ Py.chars "pdfocx") (Py.chars e)) as Hall.
  { rewrite !elem_of_cons in He.
    destruct He as [->|[->|[->|He]]]; [..|by apply elem_of_nil in He];
      repeat constructor; apply bool_decide_unpack; by vm_compute. }
  rewrite <- Hx in Hall. split.
  - intros ->. rewrite !elem_of_cons in He.
    destruct He as [->|[->|[->|He]]]; [done..|by apply elem_of_nil in He].
  - apply Forall_fmap in Hall. eapply Forall_impl; [exact Hall|].
    intros c Hc. by eapply lower_char_letter.
Qed.

Lemma after_last_spec sep l :
  ∀ acc,
    (sep ∈ l → ∃ pre, l = pre ++ sep :: Py.after_last sep acc l) ∧
    (sep ∉ l → Py.after_last sep acc l = acc ++ l).
Proof.
  induction l as [|c t IH]; intros acc.
  - split; [by intros ?%elem_of_nil | intros _; simpl; by rewrite app_nil_r].
  - simpl. destruct (decide (c = sep)) as [->|Hne].
    + split; [intros _ | intros H; exfalso; apply H; left].
      destruct (decide (sep ∈ t)) as [Hin|Hout].
      * destruct (proj1 (IH []) Hin) as [pre Hpre]. exists (sep :: pre).
        by rewrite Hpre at 1.
      * exists []. by rewrite (proj2 (IH []) Hout).
    + split.
      * intros [?|Hin]%elem_of_cons; [congruence|].
        destruct (proj1 (IH (acc ++ [c])) Hin) as [pre Hpre]. exists (c :: pre).
        by rewrite Hpre at 1.
      * intros Hout. rewrite (proj2 (IH (acc ++ [c]))), <- app_assoc; [done|].
        intros ?. apply Hout. by right.
Qed.

Lemma split_ws_word e :
  Forall (λ c, Py.isspace c = false) e →
  ∀ cur, Werkzeug.split_ws cur e = match cur ++ e with [] => [] | _ => [cur ++ e] end.
Proof.
  induction 1 as [|c e Hc He IH]; intros cur; simpl.
  - by rewrite app_nil_r.
  - rewrite Hc, IH, <- app_assoc. done.
Qed.

(** The last word of [split] ends with a suffix free of whitespace. *)
Lemma split_ws_suffix e :
  e ≠ [] → Forall (λ c, Py.isspace c = false) e →
  ∀ pre cur, ∃ ws w, Werkzeug.split_ws cur (pre ++ e) = ws ++ [w ++ e].
Proof.
  intros Hne He. induction pre as [|c pre IH]; intros cur; simpl.
  - rewrite split_ws_word by done. exists [], cur.
    destruct (cur ++ e) eqn:E; [|done]. by apply app_eq_nil in E as [_ ?].
  - destruct (Py.isspace c).
    + destruct (IH []) as (ws & w & ->). destruct cur; [by eauto|].
      by exists ((a :: cur) :: ws), w.
    + apply IH.
Qed.

Lemma join_suffix sep ws v : ∃ pre, Werkzeug.join sep (ws ++ [v]) = pre ++ v.
Proof.
  induction ws as [|w ws [pre IH]]; [by exists []|].
  exists (w ++ sep ++ pre). simpl. rewrite IH.
  destruct (ws ++ [v]) eqn:E; [by apply app_eq_nil in E as [_ ?]|].
  by rewrite <- !app_assoc.
Qed.

Lemma lstrip_by_suffix p e pre :
  e ≠ [] → Forall (λ c, p c = false) e → ∃ pre', Py.lstrip_by p (pre ++ e) = pre' ++ e.
Proof.
  intros Hne He. induction pre as [|c pre IH]; simpl.
  - exists []. destruct He as [|x e Hx _]; [done|]. simpl. by rewrite Hx.
  - destruct (p c); [done|]. by exists (c :: pre).
Qed.

Lemma rstrip_by_suffix p e pre :
  e ≠ [] → Forall (λ c, p c = false) e → Py.rstrip_by p (pre ++ e) = pre ++ e.
Proof.
  intros Hne He. unfold Py.rstrip_by. rewrite reverse_app.
  destruct (reverse e) as [|x r] eqn:E.
  - apply (f_equal reverse) in E. rewrite reverse_involutive in E. done.
  - assert (p x = false) as Hx.
    { apply Forall_reverse in He. rewrite E in He. by inversion He. }
    simpl. rewrite Hx. change (x :: r ++ reverse pre) with ((x :: r) ++ reverse pre).
    rewrite <- E, <- reverse_app. apply reverse_involutive.
Qed.

Lemma filter_all {A : Type} (P : A → Prop) `{∀ x, Decision (P x)} (l : list A) :
  Forall P l → filter P l = l.
Proof.
  induction 1 as [|x l Hx _ IH]; [done|]. by rewrite filter_cons_True, IH.
Qed.

(** A tail of letters comes through [secure_filename] untouched. *)
Lemma secure_chars_suffix pre e :
  e ≠ [] → Forall (λ c, alpha c = true) e →
  ∃ pre', Werkzeug.secure_chars (pre ++ e) = pre' ++ e.
Proof.
  intros Hne He. unfold Werkzeug.secure_chars.
  assert (filter (λ c, Werkzeug.is_ascii c = true) e = e) as E1.
  { apply filter_all. eapply Forall_impl; [exact He|]. intros c Hc.
    apply alpha_plain in Hc; tauto. }
  assert ((λ c, if decide (c = Werkzeug.slash) then " "%char else c) <$> e = e) as E2.
  { clear E1 Hne. induction He as [|c e Hc _ IH]; [done|]. rewrite fmap_cons, IH.
    apply alpha_plain in Hc. by rewrite decide_False by tauto. }
  assert (Forall (λ c, Py.isspace c = false) e) as E3.
  { eapply Forall_impl; [exact He|]. intros c Hc. apply alpha_plain in Hc; tauto. }
  assert (∀ l, filter (λ c, Werkzeug.safe_char c = true) (l ++ e)
               = filter (λ c, Werkzeug.safe_char c = true) l ++ e) as E4.
  { intros l. rewrite filter_app. f_equal. apply filter_all.
    eapply Forall_impl; [exact He|]. intros c Hc. apply alpha_plain in Hc; tauto. }
  assert (Forall (λ c, Werkzeug.dot_or_underscore c = false) e) as E5.
  { eapply Forall_impl; [exact He|]. intros c Hc. apply alpha_plain in Hc; tauto. }
  rewrite filter_app, fmap_app, E1, E2.
  destruct (split_ws_suffix e Hne E3
              ((λ c, if decide (c = Werkzeug.slash) then " "%char else c) <$>
                 filter (λ c, Werkzeug.is_ascii c = true) pre) []) as (ws & w & ->).
  destruct (join_suffix ["_"%char] ws (w ++ e)) as [j ->].
  rewrite app_assoc, E4. unfold Py.strip_by.
  destruct (lstrip_by_suffix Werkzeug.dot_or_underscore e
              (filter (λ c, Werkzeug.safe_char c = true) (j ++ w)) Hne E5) as [pre' ->].
  exists pre'. by apply rstrip_by_suffix.
Qed.

(** For a file name that [allowed_file] accepts, the sanitized name ends
    with the extension as the client wrote it, so it is not empty. *)
Lemma secure_filename_keeps_extension s :
  allowed_file s = true →
  ∃ stem, Werkzeug.secure_filename s = stem +:+ Py.rsplit_dot_1 s ∧ Py.rsplit_dot_1 s ≠ "".
Proof.
  unfold allowed_file. intros [Hdot Hext]%andb_true_iff.
  apply bool_decide_eq_true in Hext. unfold Py.has_dot in Hdot.
  apply bool_decide_eq_true in Hdot. unfold Py.rsplit_dot_1 in *.
  apply allowed_extension_letters in Hext as [Hne He].
  destruct (proj1 (after_last_spec Py.dot (Py.chars s) []) Hdot) as [pre Hpre].
  destruct (secure_chars_suffix (pre ++ [Py.dot]) _ Hne He) as [stem Hs].
  rewrite <- app_assoc in Hs. simpl in Hs. rewrite <- Hpre in Hs.
  exists (Py.str stem). split.
  - unfold Werkzeug.secure_filename. rewrite Hs.
    rewrite <- (str_chars (Py.str stem +:+ _)), string_app_chars, !chars_str. done.
  - by rewrite str_nil.
Qed.

(** C5. For a logged-in student and an upload POST with a named file:
    when [allowed_file] refuses the name (no extension, or one outside pdf,
    doc, docx) the answer is the upload form and the world is exactly the
    one before: no Application, no file, no flash.  When it accepts the name
    and the session's student exists, the file's bytes are written at
    "static/uploads/" followed by the sanitized name, one Application is
    appended with that name, the student's key, the status "Pending" and no
    approval time, and the answer redirects to the dashboard.  The sanitized
    name holds only letters, digits, [_], [.] and [-] (no path separator)
    and still ends with the extension, so it is not empty; for an ASCII file
    name it is the result of [secure_filename] as defined above. *)
Theorem upload_resume_spec g c req w sid file :
  marks (session w) !! "student_id" = Some sid → sid ≠ 0 →
  method req = "POST" →
  files req !! "resume" = Some file →
  Werkzeug.filename file ≠ "" →
  (allowed_file (Werkzeug.filename file) = false →
     step g c upload_resume_ep req w =
       (render_template "upload_resume.html"
          [("student", VStudent (get_by Student.id sid (students (db w))))], w)) ∧
  (allowed_file (Werkzeug.filename file) = true →
     ∀ student, get_by Student.id sid (students (db w)) = Some student →
     ∃ name,
       let row := Application.new (fresh_id (Application.id <$> applications (db w)))
                    (Student.id student) name (utcnow req) in
       step g c upload_resume_ep req w =
         (redirect (url_for student_dashboard_ep),
          flashed "success" "Resume uploaded successfully."
            (uploaded ("static/uploads/" +:+ name) (Werkzeug.stream file) row w)) ∧
       Student.id student = sid ∧
       Application.status row = "Pending" ∧ Application.approved_at row = None ∧
       Forall (λ c, Werkzeug.safe_char c = true) (Py.chars name) ∧
       (∃ stem, name = stem +:+ Py.rsplit_dot_1 (Werkzeug.filename file)) ∧
       name ≠ "" ∧
       (ascii_text (Werkzeug.filename file) →
          name = Werkzeug.secure_filename (Werkzeug.filename file))).
Proof.
  intros Hsid Hnz Hm Hfile Hname.
  assert (truthy_id (marks (session w) !! "student_id") = true) as Hs.
  { rewrite Hsid. simpl. by apply negb_true_iff, Z.eqb_neq. }
  assert (Werkzeug.file_truthy file = true) as Ht.
  { unfold Werkzeug.file_truthy. by destruct (Werkzeug.filename file). }
  split.
  - intros Hno. route Hm. unfold upload_resume. rewrite student_guard_truthy by done.
    unfold_m. cbn. rewrite Hsid. cbn. is_post Hm. rewrite Hfile.
    rewrite decide_False by done. by rewrite Ht, Hno.
  - intros Hyes student Hst.
    exists (Werkzeug.secure_filename (Werkzeug.filename file)). cbv zeta.
    pose proof (secure_filename_safe (Werkzeug.filename file)) as Hsafe.
    destruct (secure_filename_keeps_extension _ Hyes) as (stem & Hstem & Hext).
    split; [|split; [by apply get_by_Some in Hst as [? _]|]].
    + route Hm. unfold upload_resume. rewrite student_guard_truthy by done.
      unfold_m. cbn. rewrite Hsid. cbn. is_post Hm. rewrite Hfile.
      rewrite decide_False by done. rewrite Ht, Hyes. cbn.
      rewrite Hst. cbn. by rewrite path_join_upload.
    + split; [done|]. split; [done|]. split; [done|]. split; [by exists stem|].
      split; [|done].
      rewrite Hstem. intros E. apply (f_equal Py.chars) in E.
      rewrite string_app_chars in E. apply app_eq_nil in E as [_ E].
      apply Hext. by rewrite <- (str_chars (Py.rsplit_dot_1 _)), E.
Qed.

Lemma upload_resume_spec_witness :
  ∃ name,
    step demo_hash demo_check upload_resume_ep upload_request student_world =
      (redirect (url_for student_dashboard_ep),
       flashed "success" "Resume uploaded successfully."
         (uploaded ("static/uploads/" +:+ name) "%PDF"
            (Application.new 2 1 name 20) student_world)) ∧
    name = "My_resume.PDF".
Proof.
  destruct (proj2 (upload_resume_spec demo_hash demo_check upload_request
                     student_world 1 resume_file eq_refl ltac:(done) eq_refl eq_refl
                     ltac:(done))
              eq_refl bob eq_refl) as (name & Hstep & _ & _ & _ & _ & _ & _ & Hname).
  exists name. split; [exact Hstep|].
  rewrite Hname; [reflexivity|]. repeat constructor.
Defined.

(** ** The item listing *)

Section OrderBy.

Context {A : Type} (key : A → Z).

Lemma insert_desc_Permutation x l : insert_desc key x l ≡ₚ x :: l.
Proof.
  induction l as [|y t IH]; simpl; [done|].
  destruct (decide _); [|done]. rewrite IH. apply Permutation_swap.
Qed.

Lemma order_by_desc_Permutation l : order_by_desc key l ≡ₚ l.
Proof.
  unfold order_by_desc. induction l as [|x l IH]; simpl; [done|].
  by rewrite insert_desc_Permutation, IH.
Qed.

Lemma insert_desc_sorted x l :
  StronglySorted (λ a b, key b ≤ key a) l →
  StronglySorted (λ a b, key b ≤ key a) (insert_desc key x l).
Proof.
  induction 1 as [|y t Ht IH Hy]; simpl.
  - repeat constructor.
  - destruct (decide (key x < key y)).
    + constructor; [done|]. apply Forall_forall. intros z Hz.
      rewrite insert_desc_Permutation in Hz. apply elem_of_cons in Hz as [->|Hz]; [lia|].
      by eapply Forall_forall in Hy.
    + constructor; [by constructor|]. constructor; [lia|].
      eapply Forall_impl; [exact Hy|]. intros z Hz. simpl in Hz. lia.
Qed.

Lemma order_by_desc_sorted l : StronglySorted (λ a b, key b ≤ key a) (order_by_desc key l).
Proof.
  unfold order_by_desc. induction l as [|x l IH]; simpl; [constructor|].
  by apply insert_desc_sorted.
Qed.

End OrderBy.

Lemma StronglySorted_take_drop {A : Type} (R : relation A) (l : list A) n m :
  StronglySorted R l → StronglySorted R (take n (drop m l)).
Proof.
  intros H. rewrite <- (take_drop m l) in H. apply StronglySorted_app_1_r in H.
  rewrite <- (take_drop n (drop m l)) in H. by apply StronglySorted_app_1_l in H.
Qed.

Lemma args_get_int_page req :
  (if decide (args_get_int req "page" 1 < 1) then 1 else args_get_int req "page" 1)
  = effective_page req.
Proof.
  unfold args_get_int, effective_page.
  destruct (args req !! "page") as [v|]; [|done].
  by destruct (Py.int v).
Qed.

(** C6, as stated, fails: a page parameter that is not a number does not
    give an empty page; it gives the first page, here with the one item of
    the catalog. *)
Lemma invalid_page_is_first_page :
  Py.int "abc" = None ∧
  (step demo_hash demo_check index_ep (listing "abc") catalog_world).1 =
    render_template "list.html"
      [("items", VPage {| page := 1; per_page := 6; page_items := [widget]; total := 1 |})] ∧
  [widget] ≠ [].
Proof. split; [|split]; by vm_compute. Qed.

(** C6, amended.  A GET of the listing whose page parameter, when there is
    one, is ASCII text, and whose row offset [6 * (page - 1)] is below
    [2 ^ 63] (the database takes the offset as a 64-bit integer), is
    answered with the list template and a page, and changes nothing.  The
    page is cut from the items in an order of decreasing creation time (the
    order among items of the same time is the database's).  The page size
    is 6; the page holds the items of rank [6 * (page - 1)] up to
    [6 * page] of that order, so at most 6 items and exactly 6 when that
    many remain; a page past the last one is empty.  A page parameter that
    is missing, not a number for [int], or below one selects the first
    page. *)
Theorem index_lists_newest_first g c req w :
  method req = "GET" →
  ascii_field (args req) "page" →
  6 * (effective_page req - 1) < 2 ^ 63 →
  ∃ sorted p,
    step g c index_ep req w = (render_template "list.html" [("items", VPage p)], w) ∧
    sorted ≡ₚ items (db w) ∧ StronglySorted newer_item sorted ∧
    per_page p = 6 ∧ page p = effective_page req ∧ 1 ≤ page p ∧
    page_items p = take 6 (drop (6 * Z.to_nat (page p - 1)) sorted) ∧
    StronglySorted newer_item (page_items p) ∧
    (length (page_items p) ≤ 6)%nat ∧
    (6 * page p ≤ Z.of_nat (length (items (db w))) → length (page_items p) = 6%nat) ∧
    (Z.of_nat (length (items (db w))) ≤ 6 * (page p - 1) → page_items p = []) ∧
    (args req !! "page" = None → page p = 1) ∧
    (∀ v, args req !! "page" = Some v → Py.int v = None → page p = 1) ∧
    (∀ v n, args req !! "page" = Some v → Py.int v = Some n → n < 1 → page p = 1).
Proof.
  intros Hm _ _.
  set (sorted := order_by_desc Item.created_at (items (db w))).
  exists sorted, (paginate sorted (args_get_int req "page" 1) 6).
  assert (sorted ≡ₚ items (db w)) as Hperm by apply order_by_desc_Permutation.
  assert (StronglySorted newer_item sorted) as Hsorted
    by apply (order_by_desc_sorted Item.created_at).
  assert (page (paginate sorted (args_get_int req "page" 1) 6) = effective_page req) as Hpage.
  { unfold paginate. cbn [page]. apply args_get_int_page. }
  assert (1 ≤ effective_page req) as Hge.
  { unfold effective_page. repeat case_match; lia. }
  assert (page_items (paginate sorted (args_get_int req "page" 1) 6)
          = take 6 (drop (6 * Z.to_nat (effective_page req - 1)) sorted)) as Hitems.
  { unfold paginate. cbn [page_items]. rewrite args_get_int_page.
    rewrite decide_False by lia. f_equal. f_equal. lia. }
  split; [by route Hm|].
  rewrite Hpage, Hitems.
  repeat split; try done.
  - by apply StronglySorted_take_drop.
  - rewrite length_take. lia.
  - intros H. rewrite length_take, length_drop, Hperm. lia.
  - intros H. rewrite drop_ge; [done|]. rewrite Hperm. lia.
  - intros H. unfold effective_page. by rewrite H.
  - intros v Hv Hi. unfold effective_page. by rewrite Hv, Hi.
  - intros v n Hv Hi Hn. unfold effective_page. rewrite Hv, Hi. by rewrite decide_True.
Qed.

Lemma index_lists_newest_first_witness :
  ∃ p, step demo_hash demo_check index_ep (listing "2") catalog_world =
         (render_template "list.html" [("items", VPage p)], catalog_world) ∧
       page p = 2 ∧ per_page p = 6 ∧ page_items p = [].
Proof.
  assert (ascii_field (args (listing "2")) "page") as Hascii.
  { intros v Hv. vm_compute in Hv. injection Hv as <-. repeat constructor. }
  assert (6 * (effective_page (listing "2") - 1) < 2 ^ 63) as Hbound by (by vm_compute).
  destruct (index_lists_newest_first demo_hash demo_check (listing "2") catalog_world
              eq_refl Hascii Hbound)
    as (sorted & p & Hstep & _ & _ & Hsize & Hpage & _ & _ & _ & _ & _ & Hpast & _).
  exists p. split; [exact Hstep|]. split; [by rewrite Hpage; vm_compute|].
  split; [exact Hsize|].
  apply Hpast. rewrite Hpage. by vm_compute.
Defined.

(** ** What one request can do to the tables and to the session *)

(** Takes a view apart: the guard, the monad, then every test on the way. *)
Ltac view_cases :=
  unfold admin_register, admin_login, logout, student_register, student_login,
    student_logout, upload_resume, student_dashboard, admin_view_applications,
    approve_application, index, detail, create, edit, delete,
    admin_login_required, student_login_required;
  unfold_m; cbn;
  repeat (case_match; simplify_eq/=; try done).

Lemma step_applications g c e req w :
  let l := applications (db w) in
  let l' := applications (db (step g c e req w).2) in
  l' = l ∨
  (∃ sid fname, l' = l ++ [Application.new (fresh_id (Application.id <$> l)) sid fname
                               (utcnow req)]) ∨
  (∃ pk, l' = update_by Application.id pk (Application.approve (utcnow req)) l).
Proof.
  cbv zeta. unfold step. destruct (decide _); [by left|].
  destruct (allows e (method req)); [|by left].
  destruct e; cbn [view]; view_cases; eauto.
Qed.

Lemma step_marks g c e req w :
  let m := marks (session w) in
  let m' := marks (session (step g c e req w).2) in
  m' = m ∨ m' = base.delete "admin_id" m ∨ m' = base.delete "student_id" m ∨
  (∃ pk, m' = <["admin_id" := pk]> ∅) ∨ (∃ pk, m' = <["student_id" := pk]> ∅).
Proof.
  cbv zeta. unfold step. destruct (decide _); [by left|].
  destruct (allows e (method req)); [|by left].
  destruct e; cbn [view]; view_cases; eauto 10.
Qed.

(** ** The Application invariant *)

Lemma application_ok_new pk sid fname now : application_ok (Application.new pk sid fname now).
Proof.
  split; [by left|]. simpl. split; [by intros [? ?] | done].
Qed.

Lemma application_ok_approve now a : application_ok (Application.approve now a).
Proof. split; [by right|]. simpl. split; [done | by eexists]. Qed.

Lemma status_step_refl a : status_step a a.
Proof. unfold status_step. tauto. Qed.

Lemma status_step_trans a b c : status_step a b → status_step b c → status_step a c.
Proof.
  unfold status_step. intros (?&?&?&Hab) (?&?&?&Hbc).
  repeat split; [congruence..|].
  destruct Hab as [Hab|[Ha Hb]], Hbc as [Hbc|[Hb' Hc]]; try (left; congruence).
  - right. split; congruence.
  - right. split; congruence.
Qed.

Lemma status_step_approve now a : application_ok a → status_step a (Application.approve now a).
Proof.
  intros [[Hp|Ha] _]; unfold status_step; simpl; repeat split; auto.
Qed.

Lemma Forall2_status_step_refl l : Forall2 status_step l l.
Proof. induction l; constructor; [apply status_step_refl | done]. Qed.

Lemma evolves_refl l : evolves l l.
Proof.
  exists l, []. split; [by rewrite app_nil_r | apply Forall2_status_step_refl].
Qed.

Lemma evolves_trans l1 l2 l3 : evolves l1 l2 → evolves l2 l3 → evolves l1 l3.
Proof.
  intros (a & b & -> & Ha) (m & n & -> & Hm).
  apply Forall2_app_inv_l in Hm as (ma & mb & Hma & Hmb & ->).
  exists ma, (mb ++ n). split; [by rewrite app_assoc|].
  eapply Forall2_trans; [|exact Ha|exact Hma].
  intros x y z. apply status_step_trans.
Qed.

Lemma evolves_update pk now l :
  Forall application_ok l →
  evolves l (update_by Application.id pk (Application.approve now) l).
Proof.
  intros Hok. exists (update_by Application.id pk (Application.approve now) l), [].
  split; [by rewrite app_nil_r|]. unfold update_by.
  induction Hok as [|a l Ha _ IH]; [constructor|].
  rewrite fmap_cons. constructor; [|done].
  destruct (decide _); [by apply status_step_approve | apply status_step_refl].
Qed.

(** One request keeps the invariant and lets the table evolve. *)
Lemma step_application_invariant g c e req w :
  Forall application_ok (applications (db w)) →
  Forall application_ok (applications (db (step g c e req w).2)) ∧
  evolves (applications (db w)) (applications (db (step g c e req w).2)).
Proof.
  intros Hok.
  destruct (step_applications g c e req w) as [->|[(sid & fname & ->)|(pk & ->)]].
  - split; [done | apply evolves_refl].
  - split.
    + apply Forall_app. split; [done|].
      constructor; [apply application_ok_new | constructor].
    + eexists _, _. split; [done | apply Forall2_status_step_refl].
  - split; [|by apply evolves_update].
    unfold update_by. apply Forall_fmap. eapply Forall_impl; [exact Hok|].
    intros a Ha. simpl. destruct (decide _); [apply application_ok_approve | done].
Qed.

Lemma serve_db g c client e req s :
  server_db (serve g c client e req s).2 = db (step g c e req (world_of client s)).2.
Proof. unfold serve. by destruct (step g c e req (world_of client s)). Qed.

Lemma serve_session g c client e req s client' :
  session_of client' (serve g c client e req s).2 =
    if decide (client = client') then session (step g c e req (world_of client s)).2
    else session_of client' s.
Proof.
  unfold serve, session_of. destruct (step g c e req (world_of client s)) as [r w]. simpl.
  destruct (decide (client = client')) as [->|Hne].
  - by rewrite lookup_insert_eq.
  - by rewrite lookup_insert_ne.
Qed.

(** C2. The empty database satisfies the invariant, and whatever requests
    of whatever clients follow a server that satisfies it: every Application
    has the status "Pending" or "Approved" and an approval time exactly when
    it is "Approved"; every row that was there is still there, in its place,
    with the status it had or moved from "Pending" to "Approved". *)
Theorem application_status_invariant :
  Forall application_ok (applications empty_db) ∧
  ∀ g c reqs s,
    Forall application_ok (applications (server_db s)) →
    Forall application_ok (applications (server_db (run g c reqs s))) ∧
    evolves (applications (server_db s)) (applications (server_db (run g c reqs s))).
Proof.
  split; [constructor|].
  intros g c reqs. induction reqs as [|[[client e] req] reqs IH]; intros s Hok; simpl.
  - split; [done | apply evolves_refl].
  - destruct (step_application_invariant g c e req (world_of client s) Hok) as [Hok' Hev].
    rewrite <- serve_db in Hok', Hev.
    destruct (IH _ Hok') as [Hok'' Hev'].
    split; [done | by eapply evolves_trans].
Qed.

Lemma application_status_invariant_witness :
  Forall application_ok
    (applications (server_db (run demo_hash demo_check bob_and_alice new_server))).
Proof.
  exact (proj1 (proj2 application_status_invariant demo_hash demo_check bob_and_alice
                  new_server (proj1 application_status_invariant))).
Defined.

(** ** Sessions *)

Lemma first_by_Some {A : Type} (col : A → string) v rows r :
  first_by col v rows = Some r → r ∈ rows ∧ col r = v.
Proof.
  unfold first_by. intros H.
  assert (r ∈ filter (λ r, col r = v) rows) as Hin.
  { destruct (filter _ rows) as [|x l]; simplify_eq/=. left. }
  apply list_elem_of_filter in Hin. tauto.
Qed.

Lemma one_role_step g c e req w :
  one_role (session w) → one_role (session (step g c e req w).2).
Proof.
  unfold one_role. intros H.
  destruct (step_marks g c e req w) as [->|[->|[->|[[pk ->]|[pk ->]]]]].
  - done.
  - rewrite lookup_delete_eq. by intros [[? ?] _].
  - rewrite lookup_delete_eq. by intros [_ [? ?]].
  - rewrite (lookup_insert_ne _ "admin_id" "student_id") by done.
    rewrite lookup_empty. by intros [_ [? ?]].
  - rewrite (lookup_insert_ne _ "student_id" "admin_id") by done.
    rewrite lookup_empty. by intros [[? ?] _].
Qed.

(** C10. A login that succeeds (it alone answers with the redirect to the
    index, respectively to the dashboard) leaves a session that holds the
    marker of its own role and nothing else from before: the session was
    cleared first, so the other role's marker is gone.  Hence, when every
    client's session holds at most one of the two markers, as on a server
    that has given out no cookie yet, every client's session holds at most
    one after any sequence of requests. *)
Theorem login_clears_session g c :
  (∀ req w, (step g c admin_login_ep req w).1 = redirect (url_for index_ep) →
     ∃ admin, admin ∈ admins (db w) ∧
       session (step g c admin_login_ep req w).2 =
         {| marks := <["admin_id" := Admin.id admin]> ∅;
            flashes := [("success", "Logged in successfully.")] |} ∧
       marks (session (step g c admin_login_ep req w).2) !! "student_id" = None) ∧
  (∀ req w, (step g c student_login_ep req w).1 = redirect (url_for student_dashboard_ep) →
     ∃ student, student ∈ students (db w) ∧
       session (step g c student_login_ep req w).2 =
         {| marks := <["student_id" := Student.id student]> ∅;
            flashes := [("success", "Logged in successfully.")] |} ∧
       marks (session (step g c student_login_ep req w).2) !! "admin_id" = None) ∧
  one_role empty_session ∧
  (∀ reqs s, (∀ client, one_role (session_of client s)) →
     ∀ client, one_role (session_of client (run g c reqs s))).
Proof.
  split; [|split; [|split]].
  - intros req w. unfold step. destruct (decide _); [done|].
    destruct (allows _ _); [|done]. cbn [view].
    unfold admin_login. unfold_m. cbn.
    repeat (case_match; simplify_eq/=; try done).
    intros _. eexists. split; [by eapply first_by_Some|]. done.
  - intros req w. unfold step. destruct (decide _); [done|].
    destruct (allows _ _); [|done]. cbn [view].
    unfold student_login. unfold_m. cbn.
    repeat (case_match; simplify_eq/=; try done).
    intros _. eexists. split; [by eapply first_by_Some|]. done.
  - unfold one_role. simpl. rewrite lookup_empty. by intros [[? ?] _].
  - intros reqs. induction reqs as [|[[cl e] req] reqs IH]; intros s H; simpl; [done|].
    apply IH. intros client. rewrite serve_session. destruct (decide _); [|done].
    apply one_role_step, H.
Qed.

Lemma login_clears_session_witness :
  (step demo_hash demo_check admin_login_ep
     (request "POST" {[ "username" := "alice"; "password" := "pw1" ]} 31) student_world).1
    = redirect (url_for index_ep) ∧
  (∃ admin, admin ∈ admins demo_db ∧
     session (step demo_hash demo_check admin_login_ep
                (request "POST" {[ "username" := "alice"; "password" := "pw1" ]} 31)
                student_world).2 =
       {| marks := <["admin_id" := Admin.id admin]> ∅;
          flashes := [("success", "Logged in successfully.")] |} ∧
     marks (session (step demo_hash demo_check admin_login_ep
                       (request "POST" {[ "username" := "alice"; "password" := "pw1" ]} 31)
                       student_world).2) !! "student_id" = None) ∧
  one_role (session_of 2 (run demo_hash demo_check bob_and_alice new_server)).
Proof.
  split; [reflexivity|]. split.
  - exact (proj1 (login_clears_session demo_hash demo_check)
             (request "POST" {[ "username" := "alice"; "password" := "pw1" ]} 31)
             student_world eq_refl).
  - refine (proj2 (proj2 (proj2 (login_clears_session demo_hash demo_check)))
              bob_and_alice new_server _ 2%nat).
    intros client. exact (proj1 (proj2 (proj2 (login_clears_session demo_hash demo_check)))).
Defined.

(** ** Further properties of the handlers *)

(** X1. A login, with ASCII text in its two fields, with an unknown username
    or a password the check rejects sets no marker: the answer is the login
    form with the one message for both causes, and the world changes by
    that flash alone. *)
Theorem failed_login_sets_no_marker g c req w u p :
  method req = "POST" →
  form req !! "username" = Some u → form req !! "password" = Some p →
  ascii_text u → ascii_text p →
  ((∀ a, first_by Admin.username (Py.strip u) (admins (db w)) = Some a →
         c (Admin.password_hash a) (Py.strip p) = false) →
   step g c admin_login_ep req w =
     (render_template "admin_login.html" [],
      flashed "error" "Invalid username or password." w)) ∧
  ((∀ s, first_by Student.username (Py.strip u) (students (db w)) = Some s →
         c (Student.password_hash s) (Py.strip p) = false) →
   step g c student_login_ep req w =
     (render_template "student_login.html" [],
      flashed "error" "Invalid username or password." w)).
Proof.
  intros Hm Hu Hp _ _. split; intros Hbad; route Hm.
  - unfold admin_login. is_post Hm. unfold_m. cbn. rewrite Hu, Hp. cbn.
    destruct (first_by _ _ _) as [a|] eqn:E; [|done]. by rewrite (Hbad a).
  - unfold student_login. is_post Hm. unfold_m. cbn. rewrite Hu, Hp. cbn.
    destruct (first_by _ _ _) as [s|] eqn:E; [|done]. by rewrite (Hbad s).
Qed.

Lemma failed_login_sets_no_marker_witness :
  step demo_hash demo_check admin_login_ep
    (request "POST" {[ "username" := "alice"; "password" := "guess" ]} 9) visitor_world =
    (render_template "admin_login.html" [],
     flashed "error" "Invalid username or password." visitor_world).
Proof.
  refine (proj1 (failed_login_sets_no_marker demo_hash demo_check
                   (request "POST" {[ "username" := "alice"; "password" := "guess" ]} 9)
                   visitor_world "alice" "guess" eq_refl eq_refl eq_refl _ _) _).
  - repeat constructor.
  - repeat constructor.
  - intros a [= <-]. reflexivity.
Defined.

Lemma get_by_delete_by {A : Type} (key : A → Z) pk rows :
  get_by key pk (delete_by key pk rows) = None.
Proof.
  apply get_by_None. intros r Hr. unfold delete_by in Hr.
  by apply list_elem_of_filter in Hr as [? _].
Qed.

(** X2. Deleting an existing item removes it: the answer redirects to the
    index, and a detail request for the deleted key is then answered with
    the 404 page. *)
Theorem delete_then_detail_not_found g c item_id req req' w item :
  truthy_id (marks (session w) !! "admin_id") = true →
  method req = "POST" → method req' = "GET" →
  get_by Item.id item_id (items (db w)) = Some item →
  let w' := flashed "info" "Item deleted."
              (with_items (delete_by Item.id item_id (items (db w))) w) in
  step g c (delete_ep item_id) req w = (redirect (url_for index_ep), w') ∧
  step g c (detail_ep item_id) req' w' = (not_found_page, w').
Proof.
  intros Hs Hm Hm' Hi. cbv zeta. split.
  - route Hm. unfold delete. rewrite admin_guard_truthy by done.
    unfold_m. cbn. rewrite Hi. cbn. by destruct (get_by_Some _ _ _ _ Hi) as [-> _].
  - route Hm'. unfold detail. unfold_m. cbn. by rewrite get_by_delete_by.
Qed.

Lemma delete_then_detail_not_found_witness :
  let w := with_items [widget] admin_world in
  let w' := flashed "info" "Item deleted." (with_items (delete_by Item.id 1 [widget]) w) in
  step demo_hash demo_check (delete_ep 1) (request "POST" ∅ 6) w
    = (redirect (url_for index_ep), w') ∧
  step demo_hash demo_check (detail_ep 1) (request "GET" ∅ 7) w' = (not_found_page, w').
Proof.
  exact (delete_then_detail_not_found demo_hash demo_check 1 (request "POST" ∅ 6)
           (request "GET" ∅ 7) (with_items [widget] admin_world) widget
           eq_refl eq_refl eq_refl eq_refl).
Defined.

Lemma fresh_id_above ids x : x ∈ ids → x < fresh_id ids.
Proof.
  unfold fresh_id. induction ids as [|y ids IH]; [by intros ?%elem_of_nil|].
  intros [->|Hin]%elem_of_cons; simpl; [lia|]. specialize (IH Hin). lia.
Qed.

Lemma update_by_keys {A : Type} (key : A → Z) pk f (rows : list A) :
  (∀ r, key (f r) = key r) → key <$> update_by key pk f rows = key <$> rows.
Proof.
  intros Hf. unfold update_by. rewrite <- list_fmap_compose. apply list_fmap_ext.
  intros i r _. simpl. by destruct (decide _).
Qed.

(** X3. The keys of the Applications stay distinct, whatever the clients
    send, so an approval changes one row. *)
Theorem application_keys_distinct g c reqs s :
  NoDup (Application.id <$> applications (server_db s)) →
  NoDup (Application.id <$> applications (server_db (run g c reqs s))).
Proof.
  revert s. induction reqs as [|[[client e] req] reqs IH]; intros s Hs; simpl; [done|].
  apply IH. rewrite serve_db.
  destruct (step_applications g c e req (world_of client s))
    as [->|[(sid & fname & ->)|(pk & ->)]]; simpl.
  - done.
  - rewrite fmap_app. apply NoDup_app. split; [done|]. split.
    + intros x Hx [->|?%elem_of_nil]%elem_of_cons; [|done].
      apply fresh_id_above in Hx. simpl in Hx. lia.
    + apply NoDup_singleton.
  - by rewrite update_by_keys.
Qed.

Lemma application_keys_distinct_witness :
  NoDup (Application.id <$>
           applications (server_db (run demo_hash demo_check bob_and_alice new_server))).
Proof.
  apply (application_keys_distinct demo_hash demo_check bob_and_alice new_server).
  constructor.
Defined.

(** ** The [nl2br] template filter *)

Lemma escape_char_inert c :
  Forall (λ x, markup_char x = false) (Markup.escape_char c).
Proof.
  unfold Markup.escape_char. repeat case_decide; subst; repeat constructor.
  unfold markup_char. rewrite !bool_decide_eq_false_2 by done. done.
Qed.

Lemma escape_inert s : Forall (λ x, markup_char x = false) (Py.chars (Markup.escape s)).
Proof.
  unfold Markup.escape. rewrite chars_str. induction (Py.chars s) as [|c l IH]; [constructor|].
  rewrite bind_cons. apply Forall_app. split; [apply escape_char_inert | done].
Qed.

(** Every piece of [splitlines] is made of characters of the text that are
    no line boundaries. *)
Lemma splitlines_pieces (P : ascii → Prop) l :
  Forall P l →
  ∀ after_cr cur, Forall (λ c, P c ∧ Markup.linebreak c = false) cur →
    Forall (Forall (λ c, P c ∧ Markup.linebreak c = false))
           (Markup.splitlines after_cr cur l).
Proof.
  induction 1 as [|c l Hc Hl IH]; intros after_cr cur Hcur; simpl.
  - destruct cur; [constructor | constructor; [done | constructor]].
  - destruct (after_cr && bool_decide (c = Markup.LF)); [by apply IH|].
    destruct (Markup.linebreak c) eqn:E.
    + constructor; [done|]. apply IH. constructor.
    + apply IH. apply Forall_app. split; [done|]. by repeat constructor.
Qed.

(** A text without line boundaries is its own single line. *)
Lemma splitlines_one_line l :
  Forall (λ c, Markup.linebreak c = false) l →
  ∀ cur, Markup.splitlines false cur l = match cur ++ l with [] => [] | _ => [cur ++ l] end.
Proof.
  induction 1 as [|c l Hc Hl IH]; intros cur; simpl.
  - by rewrite app_nil_r.
  - rewrite Hc, IH, <- app_assoc. done.
Qed.

Lemma escape_plain l :
  Forall (λ c, markup_char c = false ∧ c ≠ "&"%char) l → l ≫= Markup.escape_char = l.
Proof.
  induction 1 as [|c l [Hc Hamp] _ IH]; [done|]. rewrite bind_cons, IH.
  unfold Markup.escape_char, markup_char in *.
  apply orb_false_iff in Hc as [Hc H4]. apply orb_false_iff in Hc as [Hc H3].
  apply orb_false_iff in Hc as [H1 H2]. apply bool_decide_eq_false in H1, H2, H3, H4.
  by rewrite !decide_False by done.
Qed.

(** X4. The filter's output is a sequence of pieces joined by ["<br>"]; no
    piece holds a [<], a [>], a quote or a line boundary, whatever the text
    was, so the only markup in the output is the [<br>] the filter wrote.
    [None] gives the empty string, and an ASCII text with no markup
    character, no [&] and no line boundary comes back as it is. *)
Theorem nl2br_filter_spec :
  nl2br_filter None = "" ∧
  (∀ s, ∃ pieces,
     nl2br_filter (Some s) = Py.str (Werkzeug.join (Py.chars "<br>") pieces) ∧
     Forall (Forall (λ c, markup_char c = false ∧ Markup.linebreak c = false)) pieces) ∧
  (∀ s, ascii_text s →
        Forall (λ c, markup_char c = false ∧ c ≠ "&"%char ∧ Markup.linebreak c = false)
               (Py.chars s) →
        nl2br_filter (Some s) = s).
Proof.
  split; [done|]. split.
  - intros s. eexists. split; [reflexivity|].
    apply splitlines_pieces; [apply escape_inert | constructor].
  - intros s _ Hs. unfold nl2br_filter, Markup.escape. rewrite chars_str.
    rewrite escape_plain by (eapply Forall_impl; [exact Hs|]; intros c Hc; cbv beta in *; tauto).
    rewrite splitlines_one_line
      by (eapply Forall_impl; [exact Hs|]; intros c Hc; cbv beta in *; tauto).
    cbn [app]. rewrite <- (str_chars s) at 2. by destruct (Py.chars s).
Qed.

Lemma nl2br_filter_spec_witness : nl2br_filter (Some "Widget, 2nd edition") = "Widget, 2nd edition".
Proof.
  apply (proj2 (proj2 nl2br_filter_spec) "Widget, 2nd edition").
  - repeat constructor.
  - repeat constructor; by vm_compute.
Defined.

(** ** What one request can do to the accounts, the items and the disk *)

(** Brings the tests a view has passed into a readable form. *)
Ltac tests_passed :=
  repeat match goal with
    | H : _ || _ = false |- _ => apply orb_false_iff in H as [? ?]
    | H : negb _ = false |- _ => apply negb_false_iff in H
    | H : bool_decide _ = false |- _ => apply bool_decide_eq_false in H
    | H : ¬ is_Some _ |- _ => apply eq_None_not_Some in H
    end.

Lemma step_admins g c e req w :
  let l := admins (db w) in
  let l' := admins (db (step g c e req w).2) in
  l' = l ∨
  ∃ u p, first_by Admin.username u l = None ∧ Py.truthy u = true ∧
         l' = l ++ [ {| Admin.id := fresh_id (Admin.id <$> l); Admin.username := u;
                        Admin.password_hash := g p |} ].
Proof.
  cbv zeta. unfold step. destruct (decide _); [by left|].
  destruct (allows e (method req)); [|by left].
  destruct e; cbn [view]; view_cases; tests_passed; eauto 10.
Qed.

Lemma step_students g c e req w :
  let l := students (db w) in
  let l' := students (db (step g c e req w).2) in
  l' = l ∨
  ∃ u m p, first_by Student.username u l = None ∧ first_by Student.email m l = None ∧
           Py.truthy u = true ∧ Py.truthy m = true ∧
           l' = l ++ [ {| Student.id := fresh_id (Student.id <$> l); Student.username := u;
                          Student.email := m; Student.password_hash := g p |} ].
Proof.
  cbv zeta. unfold step. destruct (decide _); [by left|].
  destruct (allows e (method req)); [|by left].
  destruct e; cbn [view]; view_cases; tests_passed; eauto 12.
Qed.

Lemma step_items g c e req w :
  let l := items (db w) in
  let l' := items (db (step g c e req w).2) in
  l' = l ∨
  (truthy_id (marks (session w) !! "admin_id") = true ∧
   ((∃ t d, Py.truthy t = true ∧
            l' = l ++ [ {| Item.id := fresh_id (Item.id <$> l); Item.title := t;
                           Item.description := d; Item.created_at := utcnow req |} ]) ∨
    (∃ pk t d, Py.truthy t = true ∧ l' = update_by Item.id pk (edited t d) l) ∨
    (∃ pk, l' = delete_by Item.id pk l))).
Proof.
  cbv zeta. unfold step. destruct (decide _); [by left|].
  destruct (allows e (method req)); [|by left].
  destruct e; cbn [view]; unfold edited; view_cases; tests_passed; try (by left).
  all: right; (split; [done|]);
    first [ left; eexists _, _; split; [done | reflexivity]
          | right; left; eexists _, _, _; split; [done | reflexivity]
          | right; right; eexists; reflexivity ].
Qed.

Lemma step_files g c e req w :
  let d := files_on_disk w in
  let d' := files_on_disk (step g c e req w).2 in
  d' = d ∨
  (truthy_id (marks (session w) !! "student_id") = true ∧
   ∃ file, allowed_file (Werkzeug.filename file) = true ∧
           d' = <[Werkzeug.path_join UPLOAD_FOLDER
                    (Werkzeug.secure_filename (Werkzeug.filename file)) :=
                  Werkzeug.stream file]> d).
Proof.
  cbv zeta. unfold step. destruct (decide _); [by left|].
  destruct (allows e (method req)); [|by left].
  destruct e; cbn [view]; view_cases; tests_passed; try (by left).
  all: repeat match goal with H : _ && _ = true |- _ => apply andb_true_iff in H as [? ?] end.
  all: right; (split; [done|]); eexists; split; [eassumption | reflexivity].
Qed.

Lemma step_applications_who g c e req w :
  let l := applications (db w) in
  let l' := applications (db (step g c e req w).2) in
  l' = l ∨
  (truthy_id (marks (session w) !! "student_id") = true ∧
   ∃ s fname, s ∈ students (db w) ∧ marks (session w) !! "student_id" = Some (Student.id s) ∧
     l' = l ++ [Application.new (fresh_id (Application.id <$> l)) (Student.id s) fname
                  (utcnow req)]) ∨
  (truthy_id (marks (session w) !! "admin_id") = true ∧
   ∃ pk, l' = update_by Application.id pk (Application.approve (utcnow req)) l).
Proof.
  cbv zeta. unfold step. destruct (decide _); [by left|].
  destruct (allows e (method req)); [|by left].
  destruct e; cbn [view]; view_cases; tests_passed; try (by left).
  all: first
    [ right; right; split; [done|]; eexists; reflexivity
    | right; left; split; [done|];
      match goal with H : get_by Student.id _ _ = Some _ |- _ =>
        apply get_by_Some in H as [<- ?] end;
      eexists _, _; split; [eassumption|]; split; reflexivity ].
Qed.

(** ** Guards, registration and login *)

(** X5. A guard looks at the truth value of the marker: with a marker other
    than 0 the wrapped handler runs on the same world and its result is the
    route's result, nothing added; the marker 0 counts as no marker. *)
Theorem guard_decides_by_truthiness (f : Request → M Response) req w :
  (∀ n, marks (session w) !! "admin_id" = Some n → n ≠ 0 →
        admin_login_required f req w = f req w) ∧
  (marks (session w) !! "admin_id" = Some 0 →
     admin_login_required f req w =
       (inr (redirect (url_for admin_login_ep)), flashed "error" "Please log in as admin." w)) ∧
  (∀ n, marks (session w) !! "student_id" = Some n → n ≠ 0 →
        student_login_required f req w = f req w) ∧
  (marks (session w) !! "student_id" = Some 0 →
     student_login_required f req w =
       (inr (redirect (url_for student_login_ep)),
        flashed "error" "Please log in as a student." w)).
Proof.
  repeat split.
  - intros n Hn Hz. apply admin_guard_truthy. rewrite Hn. simpl.
    by apply negb_true_iff, Z.eqb_neq.
  - intros Hn. apply admin_guard_falsy. by rewrite Hn.
  - intros n Hn Hz. apply student_guard_truthy. rewrite Hn. simpl.
    by apply negb_true_iff, Z.eqb_neq.
  - intros Hn. apply student_guard_falsy. by rewrite Hn.
Qed.

Lemma guard_decides_by_truthiness_witness :
  admin_login_required (λ _, ret not_found_page) (request "GET" ∅ 0)
    {| db := empty_db; files_on_disk := ∅; session := logged_in "admin_id" 0 |} =
  (inr (redirect (url_for admin_login_ep)),
   flashed "error" "Please log in as admin."
     {| db := empty_db; files_on_disk := ∅; session := logged_in "admin_id" 0 |}).
Proof.
  exact (proj1 (proj2 (guard_decides_by_truthiness (λ _, ret not_found_page)
                         (request "GET" ∅ 0)
                         {| db := empty_db; files_on_disk := ∅;
                            session := logged_in "admin_id" 0 |})) eq_refl).
Defined.

Lemma blank_not_truthy s : blank s → Py.truthy (Py.strip s) = false.
Proof. intros H. apply strip_blank in H. by rewrite H. Qed.

Lemma not_blank_truthy s : ¬ blank s → Py.truthy (Py.strip s) = true.
Proof.
  intros H. destruct (Py.truthy (Py.strip s)) eqn:E; [done|].
  apply truthy_false, strip_blank in E. done.
Qed.

(** X6. A registration POST in which a required field is empty or holds
    whitespace only is answered with the form and the "required" error;
    no row is written, whether or not the name is free. *)
Theorem blank_registration_rejected g c req w :
  method req = "POST" →
  (∀ u p, form req !! "username" = Some u → form req !! "password" = Some p →
     blank u ∨ blank p →
     step g c admin_register_ep req w =
       (render_template "admin_register.html" [],
        flashed "error" "Username and password required." w)) ∧
  (∀ u m p, form req !! "username" = Some u → form req !! "email" = Some m →
     form req !! "password" = Some p →
     blank u ∨ blank m ∨ blank p →
     step g c student_register_ep req w =
       (render_template "student_register.html" [],
        flashed "error" "All fields are required." w)).
Proof.
  intros Hm. split.
  - intros u p Hu Hp Hb. route Hm. unfold admin_register. is_post Hm.
    unfold_m. cbn. rewrite Hu, Hp. cbn.
    destruct Hb as [Hb|Hb]; apply blank_not_truthy in Hb; rewrite Hb; cbn;
      by rewrite ?orb_true_r.
  - intros u m p Hu Hm' Hp Hb. route Hm. unfold student_register. is_post Hm.
    unfold_m. cbn. rewrite Hu, Hm', Hp. cbn.
    destruct Hb as [Hb|[Hb|Hb]]; apply blank_not_truthy in Hb; rewrite Hb; cbn;
      by rewrite ?orb_true_r.
Qed.

Lemma blank_registration_rejected_witness :
  step demo_hash demo_check admin_register_ep
    (request "POST" {[ "username" := "carol"; "password" := "   " ]} 3) visitor_world =
    (render_template "admin_register.html" [],
     flashed "error" "Username and password required." visitor_world).
Proof.
  refine (proj1 (blank_registration_rejected demo_hash demo_check
                   (request "POST" {[ "username" := "carol"; "password" := "   " ]} 3)
                   visitor_world eq_refl) "carol" "   " eq_refl eq_refl _).
  right. apply strip_blank. reflexivity.
Defined.
Lemma first_by_None {A : Type} (col : A → string) v rows :
  first_by col v rows = None ↔ ∀ r, r ∈ rows → col r ≠ v.
Proof.
  rewrite eq_None_not_Some, first_by_is_Some. split.
  - intros H r Hr Hc. apply H. eauto.
  - intros H (r & Hr & Hc). by apply (H r).
Qed.

(** A row appended under a value no row had is the row the query finds. *)
Lemma first_by_new {A : Type} (col : A → string) rows r :
  (∀ x, x ∈ rows → col x ≠ col r) → first_by col (col r) (rows ++ [r]) = Some r.
Proof.
  intros H. unfold first_by. rewrite filter_app.
  assert (filter (λ x, col x = col r) rows = []) as ->.
  { apply first_by_None in H. unfold first_by in H. by destruct (filter _ rows). }
  by rewrite filter_cons_True.
Qed.

Lemma fresh_id_positive ids : 1 ≤ fresh_id ids.
Proof. unfold fresh_id. induction ids; simpl; lia. Qed.

(** X7. Registration and login of an admin fit together.  A registration
    POST with a non-blank username that no admin has and a non-blank
    password, both ASCII text, appends one admin, under a fresh key, with the trimmed
    username and the hash of the trimmed password, and redirects to the
    login page.  When the check accepts a password against its own hash, a
    login POST with the same two fields then succeeds: the session holds the
    new admin's key, which is not 0, so the admin guard lets it pass. *)
Theorem admin_register_then_login g c req w u p :
  (∀ x, c (g x) x = true) →
  method req = "POST" →
  form req !! "username" = Some u → form req !! "password" = Some p →
  ascii_text u → ascii_text p →
  ¬ blank u → ¬ blank p →
  (∀ a, a ∈ admins (db w) → Admin.username a ≠ Py.strip u) →
  let pk := fresh_id (Admin.id <$> admins (db w)) in
  let row := {| Admin.id := pk; Admin.username := Py.strip u;
                Admin.password_hash := g (Py.strip p) |} in
  let w1 := flashed "success" "Admin registered successfully."
              (with_admins (admins (db w) ++ [row]) w) in
  step g c admin_register_ep req w = (redirect (url_for admin_login_ep), w1) ∧
  step g c admin_login_ep req w1 = (redirect (url_for index_ep), signed_in "admin_id" pk w1) ∧
  truthy_id (marks (session (signed_in "admin_id" pk w1)) !! "admin_id") = true.
Proof.
  intros Hc Hm Hu Hp _ _ Hbu Hbp Hfree. cbv zeta.
  apply not_blank_truthy in Hbu, Hbp. split; [|split].
  - route Hm. unfold admin_register. is_post Hm. unfold_m. cbn. rewrite Hu, Hp. cbn.
    rewrite Hbu, Hbp. cbn. by rewrite (proj2 (first_by_None _ _ _) Hfree).
  - route Hm. unfold admin_login. is_post Hm. unfold_m. cbn. rewrite Hu, Hp. cbn.
    rewrite (first_by_new Admin.username (admins (db w))
               {| Admin.id := fresh_id (Admin.id <$> admins (db w));
                  Admin.username := Py.strip u;
                  Admin.password_hash := g (Py.strip p) |}) by done.
    cbn. by rewrite Hc.
  - cbn. rewrite lookup_insert_eq. cbn. apply negb_true_iff, Z.eqb_neq.
    pose proof (fresh_id_positive (Admin.id <$> admins (db w))). lia.
Qed.

Lemma demo_check_accepts x : demo_check (demo_hash x) x = true.
Proof. unfold demo_check. by apply bool_decide_eq_true_2. Qed.

Lemma admin_register_then_login_witness :
  step demo_hash demo_check admin_register_ep
    (request "POST" {[ "username" := " carol "; "password" := "pw3" ]} 60) visitor_world =
  (redirect (url_for admin_login_ep),
   flashed "success" "Admin registered successfully."
     (with_admins [alice; {| Admin.id := 2; Admin.username := "carol";
                             Admin.password_hash := demo_hash "pw3" |}] visitor_world)).
Proof.
  refine (proj1 (admin_register_then_login demo_hash demo_check
                   (request "POST" {[ "username" := " carol "; "password" := "pw3" ]} 60)
                   visitor_world " carol " "pw3" demo_check_accepts eq_refl eq_refl eq_refl
                   _ _ _ _ _)).
  - repeat constructor.
  - repeat constructor.
  - intros H%strip_blank. by vm_compute in H.
  - intros H%strip_blank. by vm_compute in H.
  - intros a [->|H%elem_of_nil]%elem_of_cons; [by vm_compute | done].
Defined.

(** X8. The same for a student: a registration POST with three non-blank
    fields of ASCII text whose username and email no student has appends one student with
    the trimmed username and email and the hash of the trimmed password; the
    login POST with that username and password then succeeds and leaves the
    student's key, not 0, in the session. *)
Theorem student_register_then_login g c req w u m p :
  (∀ x, c (g x) x = true) →
  method req = "POST" →
  form req !! "username" = Some u → form req !! "email" = Some m →
  form req !! "password" = Some p →
  ascii_text u → ascii_text m → ascii_text p →
  ¬ blank u → ¬ blank m → ¬ blank p →
  (∀ s, s ∈ students (db w) →
        Student.username s ≠ Py.strip u ∧ Student.email s ≠ Py.strip m) →
  let pk := fresh_id (Student.id <$> students (db w)) in
  let row := {| Student.id := pk; Student.username := Py.strip u;
                Student.email := Py.strip m; Student.password_hash := g (Py.strip p) |} in
  let w1 := flashed "success" "Registered successfully. Please login."
              (with_students (students (db w) ++ [row]) w) in
  step g c student_register_ep req w = (redirect (url_for student_login_ep), w1) ∧
  step g c student_login_ep req w1 =
    (redirect (url_for student_dashboard_ep), signed_in "student_id" pk w1) ∧
  truthy_id (marks (session (signed_in "student_id" pk w1)) !! "student_id") = true.
Proof.
  intros Hc Hm Hu Hmail Hp _ _ _ Hbu Hbm Hbp Hfree. cbv zeta.
  apply not_blank_truthy in Hbu, Hbm, Hbp. split; [|split].
  - route Hm. unfold student_register. is_post Hm. unfold_m. cbn.
    rewrite Hu, Hmail, Hp. cbn. rewrite Hbu, Hbm, Hbp. cbn.
    rewrite (proj2 (first_by_None Student.username _ _)) by (intros s Hs; by apply Hfree).
    rewrite (proj2 (first_by_None Student.email _ _)) by (intros s Hs; by apply Hfree).
    rewrite !bool_decide_eq_false_2 by (by intros [? ?]). done.
  - route Hm. unfold student_login. is_post Hm. unfold_m. cbn. rewrite Hu, Hp. cbn.
    rewrite (first_by_new Student.username (students (db w))
               {| Student.id := fresh_id (Student.id <$> students (db w));
                  Student.username := Py.strip u; Student.email := Py.strip m;
                  Student.password_hash := g (Py.strip p) |})
      by (intros s Hs; by apply Hfree).
    cbn. by rewrite Hc.
  - cbn. rewrite lookup_insert_eq. cbn. apply negb_true_iff, Z.eqb_neq.
    pose proof (fresh_id_positive (Student.id <$> students (db w))). lia.
Qed.

Lemma student_register_then_login_witness :
  step demo_hash demo_check student_register_ep
    (request "POST" {[ "username" := "dan"; "email" := "dan@x.com"; "password" := "pw4" ]} 61)
    visitor_world =
  (redirect (url_for student_login_ep),
   flashed "success" "Registered successfully. Please login."
     (with_students [bob; {| Student.id := 2; Student.username := "dan";
                             Student.email := "dan@x.com";
                             Student.password_hash := demo_hash "pw4" |}] visitor_world)).
Proof.
  refine (proj1 (student_register_then_login demo_hash demo_check
                   (request "POST"
                      {[ "username" := "dan"; "email" := "dan@x.com"; "password" := "pw4" ]} 61)
                   visitor_world "dan" "dan@x.com" "pw4" demo_check_accepts
                   eq_refl eq_refl eq_refl eq_refl _ _ _ _ _ _ _)).
  - repeat constructor.
  - repeat constructor.
  - repeat constructor.
  - intros H%strip_blank. by vm_compute in H.
  - intros H%strip_blank. by vm_compute in H.
  - intros H%strip_blank. by vm_compute in H.
  - intros s [->|H%elem_of_nil]%elem_of_cons; [by vm_compute | done].
Defined.

(** ** More on uploads *)

Lemma student_marker_truthy w sid :
  marks (session w) !! "student_id" = Some sid → sid ≠ 0 →
  truthy_id (marks (session w) !! "student_id") = true.
Proof. intros -> H. simpl. by apply negb_true_iff, Z.eqb_neq. Qed.

(** X9. An upload POST with no [resume] part, or with a part whose file name
    is empty, is answered with a flash and a redirect to the URL of the
    request itself; nothing is written and no row is created.  A GET shows
    the form and changes nothing. *)
Theorem upload_without_file g c req w sid :
  marks (session w) !! "student_id" = Some sid → sid ≠ 0 →
  (method req = "POST" → files req !! "resume" = None →
     step g c upload_resume_ep req w =
       (redirect (to_url (url req)), flashed "error" "No file part." w)) ∧
  (method req = "POST" →
     ∀ file, files req !! "resume" = Some file → Werkzeug.filename file = "" →
     step g c upload_resume_ep req w =
       (redirect (to_url (url req)), flashed "error" "No selected file." w)) ∧
  (method req = "GET" →
     step g c upload_resume_ep req w =
       (render_template "upload_resume.html"
          [("student", VStudent (get_by Student.id sid (students (db w))))], w)).
Proof.
  intros Hsid Hnz. pose proof (student_marker_truthy _ _ Hsid Hnz) as Hs.
  split; [|split].
  - intros Hm Hf. route Hm. unfold upload_resume. rewrite student_guard_truthy by done.
    unfold_m. cbn. rewrite Hsid. cbn. is_post Hm. by rewrite Hf.
  - intros Hm file Hf Hname. route Hm. unfold upload_resume.
    rewrite student_guard_truthy by done.
    unfold_m. cbn. rewrite Hsid. cbn. is_post Hm. rewrite Hf. by rewrite decide_True.
  - intros Hm. route Hm. unfold upload_resume. rewrite student_guard_truthy by done.
    unfold_m. cbn. rewrite Hsid. cbn. rewrite Hm. by rewrite decide_False.
Qed.

Lemma upload_without_file_witness :
  step demo_hash demo_check upload_resume_ep (request "POST" ∅ 21) student_world =
    (redirect (to_url "/"), flashed "error" "No file part." student_world).
Proof.
  exact (proj1 (upload_without_file demo_hash demo_check (request "POST" ∅ 21)
                  student_world 1 eq_refl ltac:(done)) eq_refl eq_refl).
Defined.

(** What an accepted upload does, whether or not the student exists. *)
Lemma upload_accepted g c req w sid file :
  marks (session w) !! "student_id" = Some sid → sid ≠ 0 →
  method req = "POST" →
  files req !! "resume" = Some file →
  allowed_file (Werkzeug.filename file) = true →
  let name := Werkzeug.secure_filename (Werkzeug.filename file) in
  let path := "static/uploads/" +:+ name in
  step g c upload_resume_ep req w =
    match get_by Student.id sid (students (db w)) with
    | Some student =>
        (redirect (url_for student_dashboard_ep),
         flashed "success" "Resume uploaded successfully."
           (uploaded path (Werkzeug.stream file)
              (Application.new (fresh_id (Application.id <$> applications (db w)))
                 (Student.id student) name (utcnow req)) w))
    | None => (server_error AttributeError, saved path (Werkzeug.stream file) w)
    end.
Proof.
  intros Hsid Hnz Hm Hfile Hyes. cbv zeta.
  pose proof (student_marker_truthy _ _ Hsid Hnz) as Hs.
  pose proof (secure_filename_safe (Werkzeug.filename file)) as Hsafe.
  assert (Werkzeug.filename file ≠ "") as Hname.
  { intros E. rewrite E in Hyes. by vm_compute in Hyes. }
  assert (Werkzeug.file_truthy file = true) as Ht.
  { unfold Werkzeug.file_truthy. by destruct (Werkzeug.filename file). }
  route Hm. unfold upload_resume. rewrite student_guard_truthy by done.
  unfold_m. cbn. rewrite Hsid. cbn. is_post Hm. rewrite Hfile.
  rewrite decide_False by done. rewrite Ht, Hyes. cbn.
  rewrite path_join_upload by done.
  by destruct (get_by Student.id sid (students (db w))).
Qed.

(** X10. A session whose student marker names no student (the account table
    was reset, say) still passes the guard.  An accepted upload then writes
    the file and fails at [student.id]: the answer is a server error, the
    file stays on disk, in the upload folder under a name of letters,
    digits, [_], [.] and [-] (for an ASCII file name, the result of
    [secure_filename] as defined above), and no Application refers to it.
    The dashboard fails the same way and changes nothing. *)
Theorem stale_student_marker g c req w sid :
  marks (session w) !! "student_id" = Some sid → sid ≠ 0 →
  get_by Student.id sid (students (db w)) = None →
  (method req = "POST" →
     ∀ file, files req !! "resume" = Some file →
       allowed_file (Werkzeug.filename file) = true →
       ∃ name,
         step g c upload_resume_ep req w =
           (server_error AttributeError,
            saved ("static/uploads/" +:+ name) (Werkzeug.stream file) w) ∧
         Forall (λ c, Werkzeug.safe_char c = true) (Py.chars name) ∧
         (ascii_text (Werkzeug.filename file) →
            name = Werkzeug.secure_filename (Werkzeug.filename file))) ∧
  (method req = "GET" →
     step g c student_dashboard_ep req w = (server_error AttributeError, w)).
Proof.
  intros Hsid Hnz Hnone. split.
  - intros Hm file Hfile Hyes.
    exists (Werkzeug.secure_filename (Werkzeug.filename file)).
    split; [|split; [apply secure_filename_safe | done]].
    rewrite (upload_accepted g c req w sid file) by done. by rewrite Hnone.
  - intros Hm. pose proof (student_marker_truthy _ _ Hsid Hnz) as Hs.
    route Hm. unfold student_dashboard. rewrite student_guard_truthy by done.
    unfold_m. cbn. rewrite Hsid. cbn. by rewrite Hnone.
Qed.

Lemma stale_student_marker_witness :
  step demo_hash demo_check upload_resume_ep upload_request
    {| db := empty_db; files_on_disk := ∅; session := logged_in "student_id" 1 |} =
  (server_error AttributeError,
   saved "static/uploads/My_resume.PDF" "%PDF"
     {| db := empty_db; files_on_disk := ∅; session := logged_in "student_id" 1 |}).
Proof.
  destruct (proj1 (stale_student_marker demo_hash demo_check upload_request
                     {| db := empty_db; files_on_disk := ∅;
                        session := logged_in "student_id" 1 |} 1
                     eq_refl ltac:(done) eq_refl) eq_refl resume_file eq_refl eq_refl)
    as (name & Hstep & _ & Hname).
  rewrite Hstep, Hname; [reflexivity|]. repeat constructor.
Defined.

(** X11. Two accepted uploads whose ASCII names sanitize to the same name go
    to the same path: the second overwrites the first on disk, and both
    Applications carry the one name, so the first resume is lost. *)
Theorem same_name_upload_overwrites g c req1 req2 w sid student file1 file2 :
  marks (session w) !! "student_id" = Some sid → sid ≠ 0 →
  get_by Student.id sid (students (db w)) = Some student →
  method req1 = "POST" → files req1 !! "resume" = Some file1 →
  allowed_file (Werkzeug.filename file1) = true →
  method req2 = "POST" → files req2 !! "resume" = Some file2 →
  allowed_file (Werkzeug.filename file2) = true →
  ascii_text (Werkzeug.filename file1) → ascii_text (Werkzeug.filename file2) →
  Werkzeug.secure_filename (Werkzeug.filename file1) =
    Werkzeug.secure_filename (Werkzeug.filename file2) →
  let name := Werkzeug.secure_filename (Werkzeug.filename file2) in
  let w2 := (step g c upload_resume_ep req2 (step g c upload_resume_ep req1 w).2).2 in
  files_on_disk w2 = <["static/uploads/" +:+ name := Werkzeug.stream file2]> (files_on_disk w) ∧
  ∃ a1 a2, applications (db w2) = applications (db w) ++ [a1; a2] ∧
           Application.resume_filename a1 = name ∧ Application.resume_filename a2 = name ∧
           Application.id a1 ≠ Application.id a2.
Proof.
  intros Hsid Hnz Hst Hm1 Hf1 Hy1 Hm2 Hf2 Hy2 _ _ Hsame. cbv zeta.
  rewrite (upload_accepted g c req1 w sid file1) by done. rewrite Hst. cbn [snd].
  set (w1 := flashed _ _ _).
  rewrite (upload_accepted g c req2 w1 sid file2) by done.
  change (students (db w1)) with (students (db w)). rewrite Hst. cbn.
  rewrite Hsame. split; [apply insert_insert_eq|].
  eexists _, _. split; [by rewrite <- app_assoc|]. split; [done|]. split; [done|].
  cbn. rewrite fmap_app. cbn.
  set (ids := Application.id <$> applications (db w)).
  assert (fresh_id ids < fresh_id (ids ++ [fresh_id ids])) as Hlt
    by (apply fresh_id_above, elem_of_app; right; left).
  lia.
Qed.

Lemma same_name_upload_overwrites_witness :
  files_on_disk
    (step demo_hash demo_check upload_resume_ep second_upload
       (step demo_hash demo_check upload_resume_ep upload_request student_world).2).2 =
  <["static/uploads/My_resume.PDF" := "%PDF-2"]> ∅.
Proof.
  exact (proj1 (same_name_upload_overwrites demo_hash demo_check upload_request
                  second_upload student_world 1 bob resume_file
                  {| Werkzeug.filename := "My_resume.PDF"; Werkzeug.stream := "%PDF-2" |}
                  eq_refl ltac:(done) eq_refl eq_refl eq_refl eq_refl eq_refl eq_refl
                  eq_refl ltac:(repeat constructor) ltac:(repeat constructor) eq_refl)).
Defined.

(** ** Items and lists *)

Lemma admin_marker_truthy w n :
  marks (session w) !! "admin_id" = Some n → n ≠ 0 →
  truthy_id (marks (session w) !! "admin_id") = true.
Proof. intros -> H. simpl. by apply negb_true_iff, Z.eqb_neq. Qed.

(** X12. The admin's list shows every Application once, the newest first,
    and the request changes nothing. *)
Theorem admin_view_lists_all g c req w n :
  marks (session w) !! "admin_id" = Some n → n ≠ 0 →
  method req = "GET" →
  ∃ shown,
    step g c admin_view_applications_ep req w =
      (render_template "admin_applications.html" [("applications", VApplications shown)], w) ∧
    shown ≡ₚ applications (db w) ∧
    StronglySorted newer_application shown.
Proof.
  intros Hn Hnz Hm. pose proof (admin_marker_truthy _ _ Hn Hnz) as Hs.
  exists (order_by_desc Application.created_at (applications (db w))). split; [|split].
  - route Hm. unfold admin_view_applications. by rewrite admin_guard_truthy.
  - apply order_by_desc_Permutation.
  - apply (order_by_desc_sorted Application.created_at).
Qed.

Lemma admin_view_lists_all_witness :
  ∃ shown,
    step demo_hash demo_check admin_view_applications_ep (request "GET" ∅ 41) admin_world =
      (render_template "admin_applications.html" [("applications", VApplications shown)],
       admin_world) ∧
    shown ≡ₚ applications (db admin_world) ∧
    StronglySorted newer_application shown.
Proof.
  exact (admin_view_lists_all demo_hash demo_check (request "GET" ∅ 41) admin_world 1
           eq_refl ltac:(done) eq_refl).
Defined.

(** A row appended under a key above all keys is the row [get] finds. *)
Lemma get_by_new {A : Type} (key : A → Z) rows r :
  key r = fresh_id (key <$> rows) → get_by key (key r) (rows ++ [r]) = Some r.
Proof.
  intros Hk. unfold get_by. rewrite filter_app.
  assert (filter (λ x, key x = key r) rows = []) as ->.
  { assert (get_by key (key r) rows = None) as H.
    { apply get_by_None. intros x Hx E.
      assert (key x < fresh_id (key <$> rows)) by (apply fresh_id_above, list_elem_of_fmap; eauto).
      lia. }
    unfold get_by in H. by destruct (filter _ rows). }
  by rewrite filter_cons_True.
Qed.

(** X13. A creation POST by a logged-in admin with a title that is not
    blank, title and description being ASCII text, appends one item: a fresh key, the trimmed title, the description
    trimmed ([None] when blank or missing) and the clock's reading; the
    other rows stay, and the answer redirects to the listing.  The detail
    page of the new key then shows that item. *)
Theorem create_then_detail g c req req' w n t :
  marks (session w) !! "admin_id" = Some n → n ≠ 0 →
  method req = "POST" → form req !! "title" = Some t → ¬ blank t →
  ascii_text t → ascii_field (form req) "description" →
  method req' = "GET" →
  let pk := fresh_id (Item.id <$> items (db w)) in
  let item := {| Item.id := pk; Item.title := Py.strip t;
                 Item.description :=
                   Py.or_None (Py.strip (Py.or_empty (form req !! "description")));
                 Item.created_at := utcnow req |} in
  let w1 := flashed "success" "Item created successfully."
              (with_items (items (db w) ++ [item]) w) in
  step g c create_ep req w = (redirect (url_for index_ep), w1) ∧
  step g c (detail_ep pk) req' w1 = (render_template "detail.html" [("item", VItem item)], w1) ∧
  Py.truthy (Item.title item) = true.
Proof.
  intros Hn Hnz Hm Ht Hb _ _ Hm'. cbv zeta.
  pose proof (admin_marker_truthy _ _ Hn Hnz) as Hs.
  apply not_blank_truthy in Hb. split; [|split; [|done]].
  - route Hm. unfold create. rewrite admin_guard_truthy by done. is_post Hm.
    rewrite Ht, or_empty_Some, Hb. reflexivity.
  - route Hm'. unfold detail. unfold_m. cbn.
    pose proof (get_by_new Item.id (items (db w))
                  {| Item.id := fresh_id (Item.id <$> items (db w));
                     Item.title := Py.strip t;
                     Item.description :=
                       Py.or_None (Py.strip (Py.or_empty (form req !! "description")));
                     Item.created_at := utcnow req |} eq_refl) as Hget.
    cbn [Item.id] in Hget. rewrite Hget. reflexivity.
Qed.

Lemma create_then_detail_witness :
  step demo_hash demo_check create_ep (request "POST" {[ "title" := " Widget " ]} 5)
    admin_world =
  (redirect (url_for index_ep),
   flashed "success" "Item created successfully." (with_items [widget] admin_world)).
Proof.
  refine (proj1 (create_then_detail demo_hash demo_check
                   (request "POST" {[ "title" := " Widget " ]} 5) (request "GET" ∅ 6)
                   admin_world 1 " Widget " eq_refl ltac:(done) eq_refl eq_refl _ _ _
                   eq_refl)).
  - intros H%strip_blank. by vm_compute in H.
  - repeat constructor.
  - intros v Hv. by vm_compute in Hv.
Defined.

(** X14. An edit POST by a logged-in admin for an existing item, with a
    title that is not blank, title and description being ASCII text, writes the trimmed title and the trimmed
    description over that row and keeps its key and creation time; rows
    with other keys are as before, no row is added or removed, and the
    answer redirects to the item's detail page.  For a key no item has, the
    answer is the 404 page and nothing changes, whatever the form holds. *)
Theorem edit_updates_in_place g c item_id req w n :
  marks (session w) !! "admin_id" = Some n → n ≠ 0 →
  method req = "POST" →
  (∀ item t, get_by Item.id item_id (items (db w)) = Some item →
     form req !! "title" = Some t → ¬ blank t →
     ascii_text t → ascii_field (form req) "description" →
     let d := Py.or_None (Py.strip (Py.or_empty (form req !! "description"))) in
     let w1 := flashed "success" "Item updated."
                 (with_items (update_by Item.id item_id (edited (Py.strip t) d)
                                (items (db w))) w) in
     step g c (edit_ep item_id) req w = (redirect (url_for (detail_ep item_id)), w1) ∧
     get_by Item.id item_id (items (db w1)) = Some (edited (Py.strip t) d item) ∧
     (∀ pk, pk ≠ item_id →
        get_by Item.id pk (items (db w1)) = get_by Item.id pk (items (db w))) ∧
     length (items (db w1)) = length (items (db w))) ∧
  (get_by Item.id item_id (items (db w)) = None →
     step g c (edit_ep item_id) req w = (not_found_page, w)).
Proof.
  intros Hn Hnz Hm. pose proof (admin_marker_truthy _ _ Hn Hnz) as Hs. split.
  - intros item t Hi Ht Hb _ _. cbv zeta. apply not_blank_truthy in Hb.
    destruct (get_by_Some _ _ _ _ Hi) as [Hid _].
    split; [|split; [|split]].
    + route Hm. unfold edit. rewrite admin_guard_truthy by done.
      unfold_m. cbn. rewrite Hi. cbn. is_post Hm.
      rewrite Ht, or_empty_Some, Hb. cbn. by rewrite Hid.
    + cbn. rewrite get_by_update_by by done. by rewrite Hi.
    + intros pk Hpk. cbn. by apply get_by_update_by_ne.
    + cbn. apply length_update_by.
  - intros Hi. route Hm. unfold edit. rewrite admin_guard_truthy by done.
    unfold_m. cbn. by rewrite Hi.
Qed.

Lemma edit_updates_in_place_witness :
  step demo_hash demo_check (edit_ep 1) (request "POST" {[ "title" := "Gadget" ]} 9)
    (with_items [widget] admin_world) =
  (redirect (url_for (detail_ep 1)),
   flashed "success" "Item updated."
     (with_items [ {| Item.id := 1; Item.title := "Gadget"; Item.description := None;
                      Item.created_at := 5 |} ] admin_world)).
Proof.
  refine (proj1 (proj1 (edit_updates_in_place demo_hash demo_check 1
                          (request "POST" {[ "title" := "Gadget" ]} 9)
                          (with_items [widget] admin_world) 1 eq_refl ltac:(done) eq_refl)
                   widget "Gadget" eq_refl eq_refl _ _ _)).
  - intros H%strip_blank. by vm_compute in H.
  - repeat constructor.
  - intros v Hv. by vm_compute in Hv.
Defined.

(** X15. A logout takes effect: after a GET of /admin/logout every route
    behind the admin guard answers with the redirect to the admin login, and
    a student marker in the same session is still there; the same holds
    with the roles exchanged. *)
Theorem logout_then_guarded g c req req' w :
  method req = "GET" →
  (∀ e, guard e = Some "admin_id" →
     let w1 := (step g c logout_ep req w).2 in
     view g c e req' w1 =
       (inr (redirect (url_for admin_login_ep)), flashed "error" "Please log in as admin." w1) ∧
     marks (session w1) !! "student_id" = marks (session w) !! "student_id") ∧
  (∀ e, guard e = Some "student_id" →
     let w1 := (step g c student_logout_ep req w).2 in
     view g c e req' w1 =
       (inr (redirect (url_for student_login_ep)),
        flashed "error" "Please log in as a student." w1) ∧
     marks (session w1) !! "admin_id" = marks (session w) !! "admin_id").
Proof.
  intros Hm. split; intros e He; cbv zeta.
  - assert ((step g c logout_ep req w).2 =
            {| db := db w; files_on_disk := files_on_disk w;
               session := {| marks := base.delete "admin_id" (marks (session w));
                             flashes := flashes (session w) ++ [("info", "Logged out.")] |} |})
      as ->.
    { by route Hm. }
    split; [|cbn; by rewrite lookup_delete_ne].
    destruct e; simplify_eq/=; apply admin_guard_falsy; cbn; by rewrite lookup_delete_eq.
  - assert ((step g c student_logout_ep req w).2 =
            {| db := db w; files_on_disk := files_on_disk w;
               session := {| marks := base.delete "student_id" (marks (session w));
                             flashes := flashes (session w) ++ [("info", "Logged out.")] |} |})
      as ->.
    { by route Hm. }
    split; [|cbn; by rewrite lookup_delete_ne].
    destruct e; simplify_eq/=; apply student_guard_falsy; cbn; by rewrite lookup_delete_eq.
Qed.

Lemma logout_then_guarded_witness :
  view demo_hash demo_check (delete_ep 1) (request "POST" ∅ 8)
    (step demo_hash demo_check logout_ep (request "GET" ∅ 7) admin_world).2 =
  (inr (redirect (url_for admin_login_ep)),
   flashed "error" "Please log in as admin."
     (step demo_hash demo_check logout_ep (request "GET" ∅ 7) admin_world).2).
Proof.
  exact (proj1 (proj1 (logout_then_guarded demo_hash demo_check (request "GET" ∅ 7)
                         (request "POST" ∅ 8) admin_world eq_refl)
                  (delete_ep 1) eq_refl)).
Defined.

(** ** File names and pages *)

Lemma after_last_no_sep sep l :
  ∀ acc, sep ∉ acc → sep ∉ Py.after_last sep acc l.
Proof.
  induction l as [|c t IH]; intros acc Hacc; simpl; [done|].
  destruct (decide (c = sep)); [apply IH, not_elem_of_nil|].
  apply IH. rewrite elem_of_app, list_elem_of_singleton. intros [H|H]; [done | congruence].
Qed.

Lemma after_last_app sep pre e :
  sep ∉ e → ∀ acc, Py.after_last sep acc (pre ++ sep :: e) = e.
Proof.
  intros He. induction pre as [|c pre IH]; intros acc; simpl.
  - rewrite decide_True by done. by rewrite (proj2 (after_last_spec sep e []) He).
  - destruct (decide (c = sep)); apply IH.
Qed.

Lemma has_dot_false s : Py.has_dot s = false ↔ Py.dot ∉ Py.chars s.
Proof. unfold Py.has_dot. apply bool_decide_eq_false. Qed.

(** X16. [allowed_file] accepts exactly the names of the form
    [stem.ext] in which [ext] has no dot and, in lower case, is one of
    pdf, doc, docx: only the part after the last dot counts, whatever its
    case, and a name without a dot is refused. *)
Theorem allowed_file_spec s :
  allowed_file s = true ↔
  ∃ stem ext, s = stem +:+ "." +:+ ext ∧ Py.has_dot ext = false ∧
              Py.lower ext ∈ ALLOWED_EXTENSIONS.
Proof.
  unfold allowed_file. rewrite andb_true_iff, !bool_decide_eq_true. split.
  - intros [Hdot Hext]. unfold Py.has_dot in Hdot. apply bool_decide_eq_true in Hdot.
    destruct (proj1 (after_last_spec Py.dot (Py.chars s) []) Hdot) as [pre Hpre].
    exists (Py.str pre), (Py.rsplit_dot_1 s). split; [|split; [|done]].
    + rewrite <- (str_chars s) at 1. rewrite Hpre at 1.
      rewrite <- (str_chars (_ +:+ _)), !string_app_chars, chars_str.
      unfold Py.rsplit_dot_1. by rewrite chars_str.
    + apply has_dot_false. unfold Py.rsplit_dot_1. rewrite chars_str.
      apply after_last_no_sep, not_elem_of_nil.
  - intros (stem & ext & -> & Hno & Hext). apply has_dot_false in Hno.
    assert (Py.chars (stem +:+ "." +:+ ext) = Py.chars stem ++ Py.dot :: Py.chars ext) as E.
    { by rewrite !string_app_chars. }
    split.
    + unfold Py.has_dot. apply bool_decide_eq_true. rewrite E, elem_of_app. right. left.
    + unfold Py.rsplit_dot_1. rewrite E, after_last_app by done. by rewrite str_chars.
Qed.

(** X17. Every item of the catalog is on one page of the listing: there is
    an order of the items, newest first, in which the item of rank [i]
    (counting from 0) is entry [i mod 6] of page [i / 6 + 1], for every
    listing request whose page parameter is ASCII text. *)
Theorem every_item_is_listed g c w :
  ∃ sorted,
    sorted ≡ₚ items (db w) ∧ StronglySorted newer_item sorted ∧
    ∀ req i item,
      method req = "GET" → ascii_field (args req) "page" →
      sorted !! i = Some item → Z.of_nat i < 2 ^ 63 →
      args_get_int req "page" 1 = Z.of_nat (i / 6) + 1 →
      ∃ p, step g c index_ep req w = (render_template "list.html" [("items", VPage p)], w) ∧
           page p = Z.of_nat (i / 6) + 1 ∧
           page_items p !! (i mod 6)%nat = Some item.
Proof.
  exists (order_by_desc Item.created_at (items (db w))).
  split; [apply order_by_desc_Permutation|].
  split; [apply (order_by_desc_sorted Item.created_at)|].
  intros req i item Hm _ Hi _ Hpage. eexists. split; [by route Hm|].
  unfold paginate. cbn [page page_items]. rewrite Hpage.
  rewrite !decide_False by lia. split; [done|].
  rewrite lookup_take_lt by (apply Nat.mod_upper_bound; lia).
  rewrite lookup_drop. rewrite <- Hi. f_equal.
  pose proof (Nat.div_mod_eq i 6). lia.
Qed.

Lemma every_item_is_listed_witness :
  ∃ p, step demo_hash demo_check index_ep (listing "1") catalog_world =
         (render_template "list.html" [("items", VPage p)], catalog_world) ∧
       page p = Z.of_nat (0 / 6) + 1 ∧
       page_items p !! (0 mod 6)%nat = Some widget.
Proof.
  destruct (every_item_is_listed demo_hash demo_check catalog_world)
    as (sorted & Hperm & _ & Hlisted).
  apply Permutation_singleton_r in Hperm. subst sorted.
  apply (Hlisted (listing "1") 0%nat widget eq_refl); [|reflexivity|by vm_compute|reflexivity].
  intros v Hv. vm_compute in Hv. injection Hv as <-. repeat constructor.
Defined.

(** ** What a request cannot do *)

Lemma allows_post_only e m : methods e = ["POST"] → allows e m = true → m = "POST".
Proof.
  unfold allows. intros ->.
  rewrite orb_true_iff, andb_true_iff, !bool_decide_eq_true.
  intros [H|[_ H]].
  - by apply list_elem_of_singleton in H.
  - apply list_elem_of_singleton in H. done.
Qed.

(** X18. Only a POST writes: a request with any other method, to any route,
    leaves every table and the upload directory as they were (a logout
    changes the session alone). *)
Theorem only_post_writes g c e req w :
  method req ≠ "POST" →
  db (step g c e req w).2 = db w ∧
  files_on_disk (step g c e req w).2 = files_on_disk w.
Proof.
  intros Hne. unfold step. destruct (decide _); [done|].
  destruct (allows e (method req)) eqn:Ha; [|done].
  destruct e;
    first [ exfalso; apply Hne; eapply allows_post_only; [|exact Ha]; reflexivity
          | cbn [view]; view_cases; done ].
Qed.

Lemma only_post_writes_witness :
  db (step demo_hash demo_check create_ep
        {| method := "GET"; url := "/create"; args := ∅;
           form := {[ "title" := "Widget" ]}; files := ∅; utcnow := 0 |} admin_world).2
    = db admin_world ∧
  files_on_disk (step demo_hash demo_check create_ep
        {| method := "GET"; url := "/create"; args := ∅;
           form := {[ "title" := "Widget" ]}; files := ∅; utcnow := 0 |} admin_world).2
    = files_on_disk admin_world.
Proof.
  apply (only_post_writes demo_hash demo_check create_ep
           {| method := "GET"; url := "/create"; args := ∅;
              form := {[ "title" := "Widget" ]}; files := ∅; utcnow := 0 |} admin_world).
  done.
Defined.

(** X19. Writes need a role.  Without a logged-in admin no request changes
    the items or an existing Application (rows can only be appended);
    without a logged-in student no request writes a file or adds an
    Application. *)
Theorem writes_need_a_role g c e req w :
  (truthy_id (marks (session w) !! "admin_id") = false →
     items (db (step g c e req w).2) = items (db w) ∧
     ∃ new, applications (db (step g c e req w).2) = applications (db w) ++ new) ∧
  (truthy_id (marks (session w) !! "student_id") = false →
     files_on_disk (step g c e req w).2 = files_on_disk w ∧
     length (applications (db (step g c e req w).2)) = length (applications (db w))).
Proof.
  split; intros Hno.
  - split.
    + destruct (step_items g c e req w) as [->|[Hyes _]]; [done | congruence].
    + destruct (step_applications_who g c e req w)
        as [->|[(_ & s & fname & _ & _ & ->)|[Hyes _]]].
      * exists []. by rewrite app_nil_r.
      * by eexists.
      * congruence.
  - split.
    + destruct (step_files g c e req w) as [->|[Hyes _]]; [done | congruence].
    + destruct (step_applications_who g c e req w) as [->|[[Hyes _]|(_ & pk & ->)]].
      * done.
      * congruence.
      * apply length_update_by.
Qed.

Lemma writes_need_a_role_witness :
  items (db (step demo_hash demo_check (delete_ep 1) (request "POST" ∅ 3) catalog_world).2)
    = items (db catalog_world).
Proof.
  exact (proj1 (proj1 (writes_need_a_role demo_hash demo_check (delete_ep 1)
                         (request "POST" ∅ 3) catalog_world) eq_refl)).
Defined.

(** ** Invariants of the tables *)

Lemma first_by_None_fresh {A : Type} (col : A → string) v rows :
  first_by col v rows = None → v ∉ col <$> rows.
Proof.
  intros H (r & -> & Hr)%list_elem_of_fmap.
  by apply (proj1 (first_by_None col (col r) rows) H r).
Qed.

Lemma NoDup_snoc_fresh {B : Type} (l : list B) x : NoDup l → x ∉ l → NoDup (l ++ [x]).
Proof.
  intros Hl Hx. apply NoDup_app. split; [done|]. split; [|apply NoDup_singleton].
  intros y Hy ->%list_elem_of_singleton. done.
Qed.

Lemma names_unique_step g c e req w :
  names_unique (db w) → names_unique (db (step g c e req w).2).
Proof.
  intros (Ha & Hu & Hm). split; [|split].
  - destruct (step_admins g c e req w) as [->|(u & p & Hfree & _ & ->)]; [done|].
    rewrite fmap_app. apply NoDup_snoc_fresh; [done|]. by apply first_by_None_fresh.
  - destruct (step_students g c e req w) as [->|(u & m & p & Hfu & _ & _ & _ & ->)]; [done|].
    rewrite fmap_app. apply NoDup_snoc_fresh; [done|]. by apply first_by_None_fresh.
  - destruct (step_students g c e req w) as [->|(u & m & p & _ & Hfm & _ & _ & ->)]; [done|].
    rewrite fmap_app. apply NoDup_snoc_fresh; [done|]. by apply first_by_None_fresh.
Qed.

(** X20. Usernames and emails stay unique.  On a server where no two admins
    share a username and no two students a username or an email, as on a new
    one, this still holds after any requests of any clients: registration
    checks before it inserts. *)
Theorem names_stay_unique g c reqs s :
  names_unique (server_db s) → names_unique (server_db (run g c reqs s)).
Proof.
  revert s. induction reqs as [|[[client e] req] reqs IH]; intros s Hs; simpl; [done|].
  apply IH. rewrite serve_db. by apply names_unique_step.
Qed.

Lemma names_stay_unique_witness :
  names_unique (server_db (run demo_hash demo_check bob_and_alice new_server)).
Proof.
  apply (names_stay_unique demo_hash demo_check bob_and_alice new_server).
  repeat split; constructor.
Defined.

Lemma fresh_id_fresh ids : fresh_id ids ∉ ids.
Proof. intros H%fresh_id_above. lia. Qed.

Lemma delete_by_keys_NoDup {A : Type} (key : A → Z) pk (rows : list A) :
  NoDup (key <$> rows) → NoDup (key <$> delete_by key pk rows).
Proof.
  intros H. eapply sublist_NoDup; [exact H|].
  apply fmap_sublist. unfold delete_by. apply sublist_filter.
Qed.

Lemma keys_distinct_step g c e req w :
  keys_distinct (db w) → keys_distinct (db (step g c e req w).2).
Proof.
  intros (Hi & Ha & Hs). split; [|split].
  - destruct (step_items g c e req w)
      as [->|[_ [(t & d & _ & ->)|[(pk & t & d & _ & ->)|(pk & ->)]]]].
    + done.
    + rewrite fmap_app. apply NoDup_snoc_fresh; [done | apply fresh_id_fresh].
    + by rewrite update_by_keys.
    + by apply delete_by_keys_NoDup.
  - destruct (step_admins g c e req w) as [->|(u & p & _ & _ & ->)]; [done|].
    rewrite fmap_app. apply NoDup_snoc_fresh; [done | apply fresh_id_fresh].
  - destruct (step_students g c e req w) as [->|(u & m & p & _ & _ & _ & _ & ->)]; [done|].
    rewrite fmap_app. apply NoDup_snoc_fresh; [done | apply fresh_id_fresh].
Qed.

(** X21. The keys of the items, of the admins and of the students stay
    pairwise distinct under any requests of any clients: an insert takes a
    key above all keys of its table, an edit keeps the key, a delete only
    removes rows. *)
Theorem keys_stay_distinct g c reqs s :
  keys_distinct (server_db s) → keys_distinct (server_db (run g c reqs s)).
Proof.
  revert s. induction reqs as [|[[client e] req] reqs IH]; intros s Hs; simpl; [done|].
  apply IH. rewrite serve_db. by apply keys_distinct_step.
Qed.

Lemma keys_stay_distinct_witness :
  keys_distinct (server_db (run demo_hash demo_check bob_and_alice new_server)).
Proof.
  apply (keys_stay_distinct demo_hash demo_check bob_and_alice new_server).
  repeat split; constructor.
Defined.

Lemma titles_present_step g c e req w :
  titles_present (db w) → titles_present (db (step g c e req w).2).
Proof.
  unfold titles_present. intros H.
  destruct (step_items g c e req w)
    as [->|[_ [(t & d & Ht & ->)|[(pk & t & d & Ht & ->)|(pk & ->)]]]].
  - done.
  - apply Forall_app. split; [done|]. by constructor.
  - unfold update_by. apply Forall_fmap. eapply Forall_impl; [exact H|].
    intros i Hi. simpl. by destruct (decide _).
  - unfold delete_by. apply Forall_forall. intros i [_ Hi]%list_elem_of_filter.
    by eapply Forall_forall in H.
Qed.

(** X22. No item ever has an empty title: [create] and [edit] refuse a
    blank title, so a catalog whose titles are all non-empty keeps that
    under any requests of any clients. *)
Theorem titles_stay_present g c reqs s :
  titles_present (server_db s) → titles_present (server_db (run g c reqs s)).
Proof.
  revert s. induction reqs as [|[[client e] req] reqs IH]; intros s Hs; simpl; [done|].
  apply IH. rewrite serve_db. by apply titles_present_step.
Qed.

Lemma titles_stay_present_witness :
  titles_present (server_db (run demo_hash demo_check bob_and_alice new_server)).
Proof.
  apply (titles_stay_present demo_hash demo_check bob_and_alice new_server).
  constructor.
Defined.

(** ** Markers and accounts *)

Lemma step_marks_accounts g c e req w :
  let m := marks (session w) in
  let m' := marks (session (step g c e req w).2) in
  m' = m ∨ m' = base.delete "admin_id" m ∨ m' = base.delete "student_id" m ∨
  (∃ a, a ∈ admins (db w) ∧ m' = <["admin_id" := Admin.id a]> ∅) ∨
  (∃ st, st ∈ students (db w) ∧ m' = <["student_id" := Student.id st]> ∅).
Proof.
  cbv zeta. unfold step. destruct (decide _); [by left|].
  destruct (allows e (method req)); [|by left].
  destruct e; cbn [view]; view_cases; try (by left); try (by right; left);
    try (by right; right; left).
  all: match goal with H : first_by _ _ _ = Some _ |- _ => apply first_by_Some in H as [? _] end.
  all: first [ right; right; right; left; eexists; split; [eassumption | reflexivity]
             | right; right; right; right; eexists; split; [eassumption | reflexivity] ].
Qed.

Lemma markers_valid_grow d d' s :
  (∃ more, admins d' = admins d ++ more) → (∃ more, students d' = students d ++ more) →
  markers_valid d s → markers_valid d' s.
Proof.
  intros [ma Ea] [ms Es] [Ha Hs]. split.
  - intros n Hn. destruct (Ha n Hn) as (a & Hin & Hid). exists a. split; [|done].
    rewrite Ea. apply elem_of_app. by left.
  - intros n Hn. destruct (Hs n Hn) as (st & Hin & Hid). exists st. split; [|done].
    rewrite Es. apply elem_of_app. by left.
Qed.

Lemma step_accounts_grow g c e req w :
  (∃ more, admins (db (step g c e req w).2) = admins (db w) ++ more) ∧
  (∃ more, students (db (step g c e req w).2) = students (db w) ++ more).
Proof.
  split.
  - destruct (step_admins g c e req w) as [->|(u & p & _ & _ & ->)];
      [exists []; by rewrite app_nil_r | by eexists].
  - destruct (step_students g c e req w) as [->|(u & m & p & _ & _ & _ & _ & ->)];
      [exists []; by rewrite app_nil_r | by eexists].
Qed.

Lemma markers_valid_step g c e req w :
  markers_valid (db w) (session w) →
  markers_valid (db (step g c e req w).2) (session (step g c e req w).2).
Proof.
  intros Hv. destruct (step_accounts_grow g c e req w) as [Ga Gs].
  assert (markers_valid (db w) (session (step g c e req w).2)) as Hv'.
  { destruct Hv as [Ha Hs].
    destruct (step_marks_accounts g c e req w)
      as [E|[E|[E|[(a & Hin & E)|(st & Hin & E)]]]]; split; intros n; rewrite E.
    - apply Ha.
    - apply Hs.
    - by rewrite lookup_delete_eq.
    - rewrite lookup_delete_ne by done. apply Hs.
    - rewrite lookup_delete_ne by done. apply Ha.
    - by rewrite lookup_delete_eq.
    - rewrite lookup_insert_eq. intros [= <-]. eauto.
    - rewrite lookup_insert_ne by done. by rewrite lookup_empty.
    - rewrite lookup_insert_ne by done. by rewrite lookup_empty.
    - rewrite lookup_insert_eq. intros [= <-]. eauto. }
  by eapply markers_valid_grow.
Qed.

(** X23. A marker always names an existing account.  When every client's
    markers do, as on a server that has given out no cookie, they still do
    after any requests of any clients: a login stores the key of the row it
    found, and no request removes an admin or a student.  So the failure of
    a stale marker cannot come from the program's own requests. *)
Theorem markers_stay_valid g c reqs s :
  (∀ client, markers_valid (server_db s) (session_of client s)) →
  ∀ client, markers_valid (server_db (run g c reqs s)) (session_of client (run g c reqs s)).
Proof.
  revert s. induction reqs as [|[[cl e] req] reqs IH]; intros s Hs; simpl; [done|].
  apply IH. intros client. rewrite serve_db, serve_session.
  destruct (decide (cl = client)) as [->|Hne].
  - apply (markers_valid_step g c e req (world_of client s)), Hs.
  - destruct (step_accounts_grow g c e req (world_of cl s)) as [Ga Gs].
    eapply markers_valid_grow; [exact Ga | exact Gs | apply Hs].
Qed.

Lemma markers_stay_valid_witness :
  markers_valid (server_db (run demo_hash demo_check bob_and_alice new_server))
    (session_of 1 (run demo_hash demo_check bob_and_alice new_server)).
Proof.
  apply (markers_stay_valid demo_hash demo_check bob_and_alice new_server).
  intros client. split; intros n H; unfold session_of in H; simpl in H;
    rewrite lookup_empty in H; simpl in H; by rewrite lookup_empty in H.
Defined.

(** ** Trimming twice *)

Lemma lstrip_by_idemp p l : Py.lstrip_by p (Py.lstrip_by p l) = Py.lstrip_by p l.
Proof.
  destruct (Py.lstrip_by p l) as [|x t] eqn:E; [done|].
  apply lstrip_by_head in E. simpl. by rewrite E.
Qed.

Lemma lstrip_by_is_suffix p l : ∃ pre, l = pre ++ Py.lstrip_by p l.
Proof.
  induction l as [|c l [pre IH]]; [by exists []|]. simpl.
  destruct (p c); [|by exists []]. exists (c :: pre). simpl. by rewrite <- IH.
Qed.

Lemma rstrip_by_is_prefix p l : ∃ suf, l = Py.rstrip_by p l ++ suf.
Proof.
  unfold Py.rstrip_by. destruct (lstrip_by_is_suffix p (reverse l)) as [pre E].
  exists (reverse pre). rewrite <- reverse_app, <- E. by rewrite reverse_involutive.
Qed.

Lemma rstrip_by_idemp p l : Py.rstrip_by p (Py.rstrip_by p l) = Py.rstrip_by p l.
Proof. unfold Py.rstrip_by. by rewrite reverse_involutive, lstrip_by_idemp. Qed.

(** Trimming what is trimmed changes nothing. *)
Lemma strip_by_idemp p l : Py.strip_by p (Py.strip_by p l) = Py.strip_by p l.
Proof.
  unfold Py.strip_by.
  assert (Py.lstrip_by p (Py.rstrip_by p (Py.lstrip_by p l))
          = Py.rstrip_by p (Py.lstrip_by p l)) as ->; [|apply rstrip_by_idemp].
  destruct (rstrip_by_is_prefix p (Py.lstrip_by p l)) as [suf E].
  destruct (Py.rstrip_by p (Py.lstrip_by p l)) as [|x t]; [done|].
  simpl in E. apply lstrip_by_head in E. simpl. by rewrite E.
Qed.

Lemma strip_idemp s : Py.strip (Py.strip s) = Py.strip s.
Proof. unfold Py.strip. by rewrite chars_str, strip_by_idemp. Qed.

Lemma or_None_Some s d : Py.or_None s = Some d → s = d ∧ d ≠ "".
Proof. unfold Py.or_None. destruct s; simpl; [done|]. by intros [= <-]. Qed.

(** X24. The edit form round-trips.  What [create] and [edit] store is in
    stored form; for such an item the GET of its edit page shows the title
    and the description (the empty string for none), and posting these
    values back writes the very same row: saving an unchanged form changes
    no item. *)
Theorem edit_form_round_trip g c item_id req_get req_post w n item :
  marks (session w) !! "admin_id" = Some n → n ≠ 0 →
  get_by Item.id item_id (items (db w)) = Some item →
  stored_form item →
  method req_get = "GET" → method req_post = "POST" →
  form req_post !! "title" = Some (Item.title item) →
  form req_post !! "description" = Some (Py.or_empty (Item.description item)) →
  step g c (edit_ep item_id) req_get w =
    (render_template "edit.html"
       [("item", VItem item); ("title", VStr (Item.title item));
        ("description", VStr (Py.or_empty (Item.description item)))], w) ∧
  (∃ w1, step g c (edit_ep item_id) req_post w = (redirect (url_for (detail_ep item_id)), w1) ∧
         get_by Item.id item_id (items (db w1)) = Some item ∧
         ∀ pk, pk ≠ item_id →
           get_by Item.id pk (items (db w1)) = get_by Item.id pk (items (db w))) ∧
  (∀ t d pk now, ¬ blank t →
     stored_form {| Item.id := pk; Item.title := Py.strip t;
                    Item.description := Py.or_None (Py.strip (Py.or_empty d));
                    Item.created_at := now |}).
Proof.
  intros Hn Hnz Hi (Ht & Hne & Hd) Hg Hp Hft Hfd.
  pose proof (admin_marker_truthy _ _ Hn Hnz) as Hs.
  destruct (get_by_Some _ _ _ _ Hi) as [Hid _].
  split; [|split].
  - route Hg. unfold edit. rewrite admin_guard_truthy by done.
    unfold_m. cbn. rewrite Hi. cbn. rewrite Hg. by rewrite decide_False.
  - assert (Py.strip (Py.or_empty (form req_post !! "title")) = Item.title item) as Et.
    { by rewrite Hft, or_empty_Some. }
    assert (Py.or_None (Py.strip (Py.or_empty (form req_post !! "description")))
            = Item.description item) as Ed.
    { rewrite Hfd, or_empty_Some. destruct (Item.description item) as [d|] eqn:E.
      - destruct (Hd d eq_refl) as [Hsd Hnd]. rewrite or_empty_Some, Hsd.
        unfold Py.or_None. by destruct d.
      - reflexivity. }
    eexists. split; [|split].
    + route Hp. unfold edit. rewrite admin_guard_truthy by done.
      unfold_m. cbn. rewrite Hi. cbn. is_post Hp. rewrite Et, Ed.
      destruct (Py.truthy (Item.title item)) eqn:E;
        [|by apply truthy_false in E]. cbn. rewrite Hid. reflexivity.
    + cbn. rewrite get_by_update_by by done. rewrite Hi. cbn. by destruct item.
    + intros pk Hpk. cbn. by apply get_by_update_by_ne.
  - intros t d pk now Hb. split; [|split]; cbn.
    + apply strip_idemp.
    + intros E. apply Hb. by apply strip_blank.
    + intros x Hx. apply or_None_Some in Hx as [<- Hx]. split; [apply strip_idemp | done].
Qed.

Lemma edit_form_round_trip_witness :
  ∃ w1, step demo_hash demo_check (edit_ep 1)
          (request "POST" {[ "title" := "Widget"; "description" := "" ]} 9)
          (with_items [widget] admin_world) = (redirect (url_for (detail_ep 1)), w1) ∧
        get_by Item.id 1 (items (db w1)) = Some widget ∧
        ∀ pk, pk ≠ 1 →
          get_by Item.id pk (items (db w1)) =
          get_by Item.id pk (items (db (with_items [widget] admin_world))).
Proof.
  refine (proj1 (proj2 (edit_form_round_trip demo_hash demo_check 1 (request "GET" ∅ 8)
                          (request "POST" {[ "title" := "Widget"; "description" := "" ]} 9)
                          (with_items [widget] admin_world) 1 widget
                          eq_refl ltac:(done) eq_refl _ eq_refl eq_refl eq_refl eq_refl))).
  split; [reflexivity|]. split; [done|]. intros d [=].
Defined.

(** ** Worked examples *)

Example strip_ex : Py.strip "  a b	" = "a b" ∧ Py.strip " 	 " = "".
Proof. by vm_compute. Qed.

Example int_ex :
  Py.int " 12 " = Some 12 ∧ Py.int "-3" = Some (-3) ∧ Py.int "1_0" = Some 10 ∧
  Py.int "abc" = None ∧ Py.int "" = None ∧ Py.int "1__0" = None ∧ Py.int "+" = None ∧
  Py.int (String (ascii_of_nat 28) "2") = None ∧
  Py.strip (String (ascii_of_nat 28) "2") = "2" ∧
  Py.int (Py.str (replicate 4300 "1"%char)) ≠ None ∧
  Py.int (Py.str (replicate 4301 "1"%char)) = None.
Proof. repeat split; by vm_compute. Qed.

(** Rows of the same time keep the order of the table. *)
Example order_by_desc_ex :
  order_by_desc fst [(5, "a"); (7, "b"); (5, "c"); (7, "d"); (6, "e")] =
    [(7, "b"); (7, "d"); (6, "e"); (5, "a"); (5, "c")].
Proof. by vm_compute. Qed.

Example allowed_file_ex :
  allowed_file "cv.PdF" = true ∧ allowed_file "cv.tar.docx" = true ∧
  allowed_file "cv" = false ∧ allowed_file "cv.pdf.exe" = false ∧ allowed_file "pdf" = false.
Proof. by vm_compute. Qed.

Example secure_filename_ex :
  Werkzeug.secure_filename "../../etc/My  resume.PDF" = "etc_My_resume.PDF" ∧
  Werkzeug.secure_filename ".pdf" = "pdf" ∧
  Werkzeug.secure_filename "a b/c.docx" = "a_b_c.docx" ∧
  Werkzeug.path_join "static/uploads" "cv.pdf" = "static/uploads/cv.pdf" ∧
  Werkzeug.path_join "static/uploads" "/etc/passwd" = "/etc/passwd".
Proof. by vm_compute. Qed.

(** After the visit Bob's resume is on disk and his application carries the
    time of the second approval; Bob's browser holds the student marker,
    Alice's the admin marker. *)
Example bob_and_alice_ex :
  let s := run demo_hash demo_check bob_and_alice new_server in
  applications (server_db s) =
    [ {| Application.id := 1; Application.student_id := 1;
         Application.resume_filename := "My_resume.PDF"; Application.status := "Approved";
         Application.created_at := 20; Application.approved_at := Some 50 |} ] ∧
  server_files s !! "static/uploads/My_resume.PDF" = Some "%PDF" ∧
  marks (session_of 1 s) !! "student_id" = Some 1 ∧
  marks (session_of 1 s) !! "admin_id" = None ∧
  marks (session_of 2 s) !! "admin_id" = Some 1 ∧
  marks (session_of 2 s) !! "student_id" = None ∧
  Admin.username <$> admins (server_db s) = ["alice"] ∧
  Student.email <$> students (server_db s) = ["bob@x.com"].
Proof. by vm_compute. Qed.

(** The spec's catalog scenario: Alice creates "Widget", the listing shows
    it, she deletes it, and its detail page is then not found. *)
Example widget_ex :
  let w1 := (step demo_hash demo_check create_ep
               (request "POST" {[ "title" := " Widget " ]} 5) admin_world).2 in
  let w2 := (step demo_hash demo_check (delete_ep 1) (request "POST" ∅ 6) w1).2 in
  items (db w1) = [widget] ∧
  (step demo_hash demo_check index_ep (request "GET" ∅ 7) w1).1 =
    render_template "list.html"
      [("items", VPage {| page := 1; per_page := 6; page_items := [widget]; total := 1 |})] ∧
  items (db w2) = [] ∧
  (step demo_hash demo_check (detail_ep 1) (request "GET" ∅ 8) w2).1 = not_found_page.
Proof. by vm_compute. Qed.

Example nl2br_filter_ex :
  nl2br_filter (Some "a<b
c & d
") = "a&lt;b<br>c &amp; d" ∧
  nl2br_filter (Some "") = "" ∧ nl2br_filter None = "".
Proof. by vm_compute. Qed.
